(** * bioapp: biometric two-factor authentication

    A shallow embedding of the credential protocol of the repository:
    [hashing.py] (salted PBKDF2 digest of the feature vector),
    [encryption.py] (Fernet sealing of the digest), [totp.py] (pyotp
    one-time codes), [auth.py] (enrolment and verification against the
    JSON user database, and the two commands of the menu) and [main.py]
    (the menu).

    The library routines the source calls (hashlib, hmac, base64, binascii,
    pyotp, cryptography.fernet) are written out from their published
    algorithms, so that every function of the repository can be run on
    concrete inputs.  Randomness, the clock, the console and the sensor are
    fields of an explicit world that the repository's functions thread. *)

From Stdlib Require Import ZArith List String Ascii Bool Lia Btauto.
From Stdlib Require Import Init.Byte Strings.Byte DecimalString.
From Stdlib Require DecimalFacts DecimalPos DecimalN.
From stdpp Require Import gmap strings.
Import ListNotations.

Local Open Scope Z_scope.

(** ** Bytes *)

Abbreviation bytes := (list byte).

Definition Z_of_byte (b : byte) : Z := Z.of_N (Byte.to_N b).

Definition byte_of_Z (z : Z) : byte :=
  match Byte.of_N (Z.to_N (z mod 256)) with
  | Some b => b
  | None => x00
  end.

(** The eight bits of a byte, least significant first. *)
Definition bits8 : Type :=
  bool * (bool * (bool * (bool * (bool * (bool * (bool * bool)))))).

Definition xor_bits (a b : bits8) : bits8 :=
  let '(a0, (a1, (a2, (a3, (a4, (a5, (a6, a7))))))) := a in
  let '(b0, (b1, (b2, (b3, (b4, (b5, (b6, b7))))))) := b in
  (xorb a0 b0, (xorb a1 b1, (xorb a2 b2, (xorb a3 b3,
   (xorb a4 b4, (xorb a5 b5, (xorb a6 b6, xorb a7 b7))))))).

Definition bxor (a b : byte) : byte :=
  Byte.of_bits (xor_bits (Byte.to_bits a) (Byte.to_bits b)).

(** [int.to_bytes(n, 'big')] of the low [8 * n] bits of [z]. *)
Fixpoint be_bytes (n : nat) (z : Z) : bytes :=
  match n with
  | O => []
  | S k => byte_of_Z (Z.shiftr z (8 * Z.of_nat k)) :: be_bytes k z
  end.

(** [int.from_bytes(bs, 'big')]. *)
Definition be_int (bs : bytes) : Z :=
  fold_left (fun acc b => Z.lor (Z.shiftl acc 8) (Z_of_byte b)) bs 0.

(** Little-endian layout of a [w]-byte machine value. *)
Fixpoint le_bytes (n : nat) (z : Z) : bytes :=
  match n with
  | O => []
  | S k => byte_of_Z z :: le_bytes k (Z.shiftr z 8)
  end.

Definition bytes_of_string (s : string) : bytes :=
  map (fun c => byte_of_Z (Z.of_N (N_of_ascii c))) (list_ascii_of_string s).

Definition string_of_bytes (bs : bytes) : string :=
  string_of_list_ascii (map (fun b => ascii_of_N (Byte.to_N b)) bs).

Fixpoint bytes_eqb (a b : bytes) : bool :=
  match a, b with
  | [], [] => true
  | x :: a', y :: b' => Byte.eqb x y && bytes_eqb a' b'
  | _, _ => false
  end.

(** Consecutive slices of [k] elements; the last one may be shorter. *)
Fixpoint chunks_fuel {A} (fuel k : nat) (l : list A) : list (list A) :=
  match fuel with
  | O => []
  | S f =>
      match l with
      | [] => []
      | _ => firstn k l :: chunks_fuel f k (skipn k l)
      end
  end.

Definition chunks {A} (k : nat) (l : list A) : list (list A) :=
  chunks_fuel (length l) k l.

(** Python's slices [s[:-n]] and [s[-n:]]. *)
Definition drop_last {A} (n : nat) (l : list A) : list A :=
  firstn (length l - n) l.

Definition take_last {A} (n : nat) (l : list A) : list A :=
  skipn (length l - n) l.

(** ** hashlib and hmac *)

Module hashlib.

Definition mask32 : Z := 0xFFFFFFFF.
Definition add32 (a b : Z) : Z := Z.land (a + b) mask32.
Definition not32 (a : Z) : Z := Z.lxor a mask32.
Definition rotl32 (n x : Z) : Z :=
  Z.lor (Z.land (Z.shiftl x n) mask32) (Z.shiftr x (32 - n)).
Definition rotr32 (n x : Z) : Z := rotl32 (32 - n) x.

(** Merkle-Damgard padding shared by SHA-1 and SHA-256: a [0x80] byte,
    zeros up to 56 modulo 64, and the bit length on 8 bytes. *)
Definition md_pad (msg : bytes) : bytes :=
  let len := Z.of_nat (length msg) in
  let zeros := Z.to_nat ((55 - len) mod 64) in
  msg ++ [x80] ++ repeat x00 zeros ++ be_bytes 8 (8 * len).

Definition words_of_block (blk : bytes) : list Z :=
  map be_int (chunks 4 blk).

(** *** SHA-1 (FIPS 180-4, section 6.1) *)

Fixpoint sha1_schedule (n : nat) (w : list Z) : list Z :=
  match n with
  | O => w
  | S k =>
      let t := length w in
      let x := Z.lxor (Z.lxor (nth (t - 3) w 0) (nth (t - 8) w 0))
                      (Z.lxor (nth (t - 14) w 0) (nth (t - 16) w 0)) in
      sha1_schedule k (w ++ [rotl32 1 x])
  end.

Definition sha1_f (t : nat) (b c d : Z) : Z :=
  if (t <? 20)%nat then Z.lor (Z.land b c) (Z.land (not32 b) d)
  else if (t <? 40)%nat then Z.lxor (Z.lxor b c) d
  else if (t <? 60)%nat then
    Z.lor (Z.lor (Z.land b c) (Z.land b d)) (Z.land c d)
  else Z.lxor (Z.lxor b c) d.

Definition sha1_k (t : nat) : Z :=
  if (t <? 20)%nat then 0x5A827999
  else if (t <? 40)%nat then 0x6ED9EBA1
  else if (t <? 60)%nat then 0x8F1BBCDC
  else 0xCA62C1D6.

Definition sha1_state : Type := Z * Z * Z * Z * Z.

Definition sha1_round (st : sha1_state) (tw : nat * Z) : sha1_state :=
  let '(a, b, c, d, e) := st in
  let '(t, w) := tw in
  let tmp :=
    add32 (add32 (add32 (add32 (rotl32 5 a) (sha1_f t b c d)) e) (sha1_k t)) w in
  (tmp, a, rotl32 30 b, c, d).

Definition sha1_compress (h : sha1_state) (blk : bytes) : sha1_state :=
  let w := sha1_schedule 64 (words_of_block blk) in
  let '(a, b, c, d, e) := fold_left sha1_round (combine (seq 0 80) w) h in
  let '(h0, h1, h2, h3, h4) := h in
  (add32 h0 a, add32 h1 b, add32 h2 c, add32 h3 d, add32 h4 e).

Definition sha1_init : sha1_state :=
  (0x67452301, 0xEFCDAB89, 0x98BADCFE, 0x10325476, 0xC3D2E1F0).

Definition sha1 (msg : bytes) : bytes :=
  let '(h0, h1, h2, h3, h4) :=
    fold_left sha1_compress (chunks 64 (md_pad msg)) sha1_init in
  be_bytes 4 h0 ++ be_bytes 4 h1 ++ be_bytes 4 h2 ++ be_bytes 4 h3
    ++ be_bytes 4 h4.

(** *** HMAC (RFC 2104) over a hash with 64-byte blocks *)

Definition hmac (H : bytes -> bytes) (key msg : bytes) : bytes :=
  let k0 := if (64 <? length key)%nat then H key else key in
  let k := k0 ++ repeat x00 (64 - length k0) in
  let ipad := map (bxor x36) k in
  let opad := map (bxor x5c) k in
  H (opad ++ H (ipad ++ msg)).

Definition hmac_sha1 : bytes -> bytes -> bytes := hmac sha1.

(** *** SHA-256 (FIPS 180-4, section 6.2) *)

Definition sha256_k : list Z :=
  [ 0x428A2F98; 0x71374491; 0xB5C0FBCF; 0xE9B5DBA5;
    0x3956C25B; 0x59F111F1; 0x923F82A4; 0xAB1C5ED5;
    0xD807AA98; 0x12835B01; 0x243185BE; 0x550C7DC3;
    0x72BE5D74; 0x80DEB1FE; 0x9BDC06A7; 0xC19BF174;
    0xE49B69C1; 0xEFBE4786; 0x0FC19DC6; 0x240CA1CC;
    0x2DE92C6F; 0x4A7484AA; 0x5CB0A9DC; 0x76F988DA;
    0x983E5152; 0xA831C66D; 0xB00327C8; 0xBF597FC7;
    0xC6E00BF3; 0xD5A79147; 0x06CA6351; 0x14292967;
    0x27B70A85; 0x2E1B2138; 0x4D2C6DFC; 0x53380D13;
    0x650A7354; 0x766A0ABB; 0x81C2C92E; 0x92722C85;
    0xA2BFE8A1; 0xA81A664B; 0xC24B8B70; 0xC76C51A3;
    0xD192E819; 0xD6990624; 0xF40E3585; 0x106AA070;
    0x19A4C116; 0x1E376C08; 0x2748774C; 0x34B0BCB5;
    0x391C0CB3; 0x4ED8AA4A; 0x5B9CCA4F; 0x682E6FF3;
    0x748F82EE; 0x78A5636F; 0x84C87814; 0x8CC70208;
    0x90BEFFFA; 0xA4506CEB; 0xBEF9A3F7; 0xC67178F2 ].

Definition ssig0 (x : Z) : Z :=
  Z.lxor (Z.lxor (rotr32 7 x) (rotr32 18 x)) (Z.shiftr x 3).
Definition ssig1 (x : Z) : Z :=
  Z.lxor (Z.lxor (rotr32 17 x) (rotr32 19 x)) (Z.shiftr x 10).
Definition bsig0 (x : Z) : Z :=
  Z.lxor (Z.lxor (rotr32 2 x) (rotr32 13 x)) (rotr32 22 x).
Definition bsig1 (x : Z) : Z :=
  Z.lxor (Z.lxor (rotr32 6 x) (rotr32 11 x)) (rotr32 25 x).
Definition ch (x y z : Z) : Z :=
  Z.lxor (Z.land x y) (Z.land (not32 x) z).
Definition maj (x y z : Z) : Z :=
  Z.lxor (Z.lxor (Z.land x y) (Z.land x z)) (Z.land y z).

Fixpoint sha256_schedule (n : nat) (w : list Z) : list Z :=
  match n with
  | O => w
  | S k =>
      let t := length w in
      let x := add32 (add32 (ssig1 (nth (t - 2) w 0)) (nth (t - 7) w 0))
                     (add32 (ssig0 (nth (t - 15) w 0)) (nth (t - 16) w 0)) in
      sha256_schedule k (w ++ [x])
  end.

Definition sha256_state : Type := Z * Z * Z * Z * Z * Z * Z * Z.

Definition sha256_round (st : sha256_state) (kw : Z * Z) : sha256_state :=
  let '(a, b, c, d, e, f, g, h) := st in
  let '(k, w) := kw in
  let t1 := add32 (add32 (add32 (add32 h (bsig1 e)) (ch e f g)) k) w in
  let t2 := add32 (bsig0 a) (maj a b c) in
  (add32 t1 t2, a, b, c, add32 d t1, e, f, g).

Definition sha256_compress (s : sha256_state) (blk : bytes) : sha256_state :=
  let w := sha256_schedule 48 (words_of_block blk) in
  let '(a, b, c, d, e, f, g, h) :=
    fold_left sha256_round (combine sha256_k w) s in
  let '(h0, h1, h2, h3, h4, h5, h6, h7) := s in
  (add32 h0 a, add32 h1 b, add32 h2 c, add32 h3 d,
   add32 h4 e, add32 h5 f, add32 h6 g, add32 h7 h).

Definition sha256_init : sha256_state :=
  (0x6A09E667, 0xBB67AE85, 0x3C6EF372, 0xA54FF53A,
   0x510E527F, 0x9B05688C, 0x1F83D9AB, 0x5BE0CD19).

Definition sha256 (msg : bytes) : bytes :=
  let '(h0, h1, h2, h3, h4, h5, h6, h7) :=
    fold_left sha256_compress (chunks 64 (md_pad msg)) sha256_init in
  be_bytes 4 h0 ++ be_bytes 4 h1 ++ be_bytes 4 h2 ++ be_bytes 4 h3
    ++ be_bytes 4 h4 ++ be_bytes 4 h5 ++ be_bytes 4 h6 ++ be_bytes 4 h7.

Definition hmac_sha256 : bytes -> bytes -> bytes := hmac sha256.

(** *** PBKDF2 (RFC 8018, section 5.2)

    [hashlib.pbkdf2_hmac('sha256', password, salt, iterations)] with the
    default [dklen], the digest size: the derived key is the single block
    [T_1 = U_1 xor ... xor U_c].  hashlib raises [ValueError] when
    [iterations < 1]; that is the [None] here. *)

Definition xor_bytes (a b : bytes) : bytes :=
  map (fun p => bxor (fst p) (snd p)) (combine a b).

Definition pbkdf2_step (password : bytes) (tu : bytes * bytes)
  : bytes * bytes :=
  let u' := hmac_sha256 password (snd tu) in
  (xor_bytes (fst tu) u', u').

(** The block [T_1] for [iterations >= 1]. *)
Definition pbkdf2_block (password salt : bytes) (iterations : N) : bytes :=
  let u1 := hmac_sha256 password (salt ++ be_bytes 4 1) in
  fst (N.iter (iterations - 1) (pbkdf2_step password) (u1, u1)).

Definition pbkdf2_hmac_sha256 (password salt : bytes) (iterations : N)
  : option bytes :=
  if (iterations <? 1)%N then None
  else Some (pbkdf2_block password salt iterations).

End hashlib.

(** ** Exceptions

    The exceptions the modelled calls can raise.  [BinasciiError] is
    [binascii.Error], [InvalidToken] is [cryptography.fernet.InvalidToken]. *)

Inductive exn : Type :=
| ValueError
| BinasciiError
| OverflowError
| InvalidToken
| EOFError.

Inductive result (A : Type) : Type :=
| Ok (a : A)
| Raise (e : exn).

Arguments Ok {A} a.
Arguments Raise {A} e.

Definition rbind {A B} (r : result A) (k : A -> result B) : result B :=
  match r with
  | Ok a => k a
  | Raise e => Raise e
  end.

Notation "'try!' x ':=' r 'in' k" := (rbind r (fun x => k))
  (at level 10, x pattern, r at level 100, k at level 200).

(** ** binascii and base64 *)

Module base64.

Definition in_range (lo hi z : Z) : bool := (lo <=? z) && (z <=? hi).

Definition pad_char : byte := x3d.

(** [binascii.table_b2a_base64]: the standard alphabet. *)
Definition b64_char (v : Z) : byte :=
  byte_of_Z (if v <? 26 then 65 + v
             else if v <? 52 then 71 + v
             else if v <? 62 then v - 4
             else if v =? 62 then 43 else 47).

(** [binascii.table_a2b_base64]; [None] for a byte outside the alphabet. *)
Definition b64_value (c : byte) : option Z :=
  let z := Z_of_byte c in
  if in_range 65 90 z then Some (z - 65)
  else if in_range 97 122 z then Some (z - 71)
  else if in_range 48 57 z then Some (z + 4)
  else if z =? 43 then Some 62
  else if z =? 47 then Some 63
  else None.

(** [binascii.b2a_base64(s, newline=False)]. *)
Fixpoint b2a_base64 (s : bytes) : bytes :=
  match s with
  | [] => []
  | [a] =>
      let a := Z_of_byte a in
      [ b64_char (Z.shiftr a 2);
        b64_char (Z.shiftl (Z.land a 3) 4);
        pad_char; pad_char ]
  | [a; b] =>
      let a := Z_of_byte a in
      let b := Z_of_byte b in
      [ b64_char (Z.shiftr a 2);
        b64_char (Z.lor (Z.shiftl (Z.land a 3) 4) (Z.shiftr b 4));
        b64_char (Z.shiftl (Z.land b 15) 2);
        pad_char ]
  | a :: b :: c :: rest =>
      let a := Z_of_byte a in
      let b := Z_of_byte b in
      let c := Z_of_byte c in
      b64_char (Z.shiftr a 2)
      :: b64_char (Z.lor (Z.shiftl (Z.land a 3) 4) (Z.shiftr b 4))
      :: b64_char (Z.lor (Z.shiftl (Z.land b 15) 2) (Z.shiftr c 6))
      :: b64_char (Z.land c 63)
      :: b2a_base64 rest
  end.

Definition consb (b : byte) (r : result bytes) : result bytes :=
  match r with
  | Ok l => Ok (b :: l)
  | Raise e => Raise e
  end.

(** [binascii.a2b_base64(s, strict_mode=False)] (CPython 3.11): bytes
    outside the alphabet are skipped, a pad sequence that completes a quad
    stops the decoding, and a dangling partial quad is an error. *)
Fixpoint a2b_loop (s : bytes) (quad_pos : nat) (leftchar : Z) (pads : nat)
  : result bytes :=
  match s with
  | [] =>
      match quad_pos with
      | O => Ok []
      | _ => Raise BinasciiError
      end
  | this_ch :: rest =>
      if Byte.eqb this_ch pad_char then
        if (2 <=? quad_pos)%nat then
          if (4 <=? quad_pos + S pads)%nat then Ok []
          else a2b_loop rest quad_pos leftchar (S pads)
        else a2b_loop rest quad_pos leftchar pads
      else
        match b64_value this_ch with
        | None => a2b_loop rest quad_pos leftchar pads
        | Some v =>
            match quad_pos with
            | 0%nat => a2b_loop rest 1 v 0
            | 1%nat =>
                consb (byte_of_Z (Z.lor (Z.shiftl leftchar 2) (Z.shiftr v 4)))
                      (a2b_loop rest 2 (Z.land v 15) 0)
            | 2%nat =>
                consb (byte_of_Z (Z.lor (Z.shiftl leftchar 4) (Z.shiftr v 2)))
                      (a2b_loop rest 3 (Z.land v 3) 0)
            | _ =>
                consb (byte_of_Z (Z.lor (Z.shiftl leftchar 6) v))
                      (a2b_loop rest 0 0 0)
            end
        end
  end.

Definition a2b_base64 (s : bytes) : result bytes := a2b_loop s 0 0 0.

(** [bytes.translate] with [_urlsafe_encode_translation] and
    [_urlsafe_decode_translation]. *)
Definition urlsafe_encode_translation (c : byte) : byte :=
  if Byte.eqb c x2b then x2d else if Byte.eqb c x2f then x5f else c.

Definition urlsafe_decode_translation (c : byte) : byte :=
  if Byte.eqb c x2d then x2b else if Byte.eqb c x5f then x2f else c.

Definition urlsafe_b64encode (s : bytes) : bytes :=
  map urlsafe_encode_translation (b2a_base64 s).

Definition urlsafe_b64decode (s : bytes) : result bytes :=
  a2b_base64 (map urlsafe_decode_translation s).

(** *** Base32 *)

(** [_b32rev] for [_b32alphabet = b'ABCDEFGHIJKLMNOPQRSTUVWXYZ234567']. *)
Definition b32_value (c : byte) : option Z :=
  let z := Z_of_byte c in
  if in_range 65 90 z then Some (z - 65)
  else if in_range 50 55 z then Some (z - 24)
  else None.

Definition b32_char (v : Z) : byte :=
  byte_of_Z (if v <? 26 then 65 + v else v + 24).

(** [bytes.upper]. *)
Definition upper (c : byte) : byte :=
  let z := Z_of_byte c in
  if in_range 97 122 z then byte_of_Z (z - 32) else c.

(** [bytes.rstrip(b'=')]. *)
Fixpoint rstrip_pad (s : bytes) : bytes :=
  match s with
  | [] => []
  | c :: rest =>
      match rstrip_pad rest with
      | [] => if Byte.eqb c pad_char then [] else [c]
      | r => c :: r
      end
  end.

(** The inner loop [acc = (acc << 5) + b32rev[c]] over one quantum. *)
Fixpoint b32_acc (quanta : bytes) (acc : Z) : result Z :=
  match quanta with
  | [] => Ok acc
  | c :: rest =>
      match b32_value c with
      | Some v => b32_acc rest (Z.shiftl acc 5 + v)
      | None => Raise BinasciiError
      end
  end.

(** The loop over the quanta: the decoded bytes and the last [acc]. *)
Fixpoint b32_quanta (qs : list bytes) (acc : Z) : result (bytes * Z) :=
  match qs with
  | [] => Ok ([], acc)
  | q :: rest =>
      try! a := b32_acc q 0 in
      try! r := b32_quanta rest a in
      Ok (be_bytes 5 a ++ fst r, snd r)
  end.

(** [base64.b32decode(s, casefold=True)] on a [bytes] argument. *)
Definition b32decode (s : bytes) : result bytes :=
  if negb (length s mod 8 =? 0)%nat then Raise BinasciiError
  else
    let s := map upper s in
    let l := length s in
    let s := rstrip_pad s in
    let padchars := (l - length s)%nat in
    try! r := b32_quanta (chunks 8 s) 0 in
    let '(decoded, acc) := r in
    if negb (existsb (Nat.eqb padchars) [0; 1; 3; 4; 6]%nat)
    then Raise BinasciiError
    else
      match padchars, decoded with
      | O, _ | _, [] => Ok decoded
      | _, _ =>
          let acc := Z.shiftl acc (5 * Z.of_nat padchars) in
          let last := be_bytes 5 acc in
          let leftover := ((43 - 5 * padchars) / 8)%nat in
          Ok (drop_last 5 decoded ++ firstn leftover last)
      end.

(** *** Hexadecimal: [bytes.hex] and [bytes.fromhex] *)

Definition hex_digit (v : Z) : ascii :=
  ascii_of_N (Z.to_N (if v <? 10 then 48 + v else 87 + v)).

Definition hex_value (c : ascii) : option Z :=
  let z := Z.of_N (N_of_ascii c) in
  if in_range 48 57 z then Some (z - 48)
  else if in_range 97 102 z then Some (z - 87)
  else if in_range 65 70 z then Some (z - 55)
  else None.

Fixpoint hex (bs : bytes) : string :=
  match bs with
  | [] => EmptyString
  | b :: rest =>
      String (hex_digit (Z.shiftr (Z_of_byte b) 4))
        (String (hex_digit (Z.land (Z_of_byte b) 15)) (hex rest))
  end.

(** [Py_ISSPACE]. *)
Definition is_space (c : ascii) : bool :=
  let z := Z.of_N (N_of_ascii c) in in_range 9 13 z || (z =? 32).

(** [bytes.fromhex]: white space is skipped between the pairs of digits;
    anything else that is not a pair of hexadecimal digits is a
    [ValueError]. *)
Fixpoint fromhex (s : string) : result bytes :=
  match s with
  | EmptyString => Ok []
  | String c rest =>
      if is_space c then fromhex rest
      else
        match hex_value c, rest with
        | Some top, String d rest' =>
            match hex_value d with
            | Some bot => consb (byte_of_Z (Z.shiftl top 4 + bot)) (fromhex rest')
            | None => Raise ValueError
            end
        | _, _ => Raise ValueError
        end
  end.

End base64.

(** ** AES-128 (FIPS 197) in CBC mode with PKCS7 padding

    The primitives behind [cryptography.fernet.Fernet]. *)

Module aes.

(** A column of the state is four bytes; a block is four columns, in the
    order of the input bytes. *)
Definition column : Type := byte * byte * byte * byte.
Definition block : Type := column * column * column * column.

Definition sbox_table : bytes :=
  [
    x63; x7c; x77; x7b; xf2; x6b; x6f; xc5; x30; x01; x67; x2b; xfe; xd7; xab; x76;
    xca; x82; xc9; x7d; xfa; x59; x47; xf0; xad; xd4; xa2; xaf; x9c; xa4; x72; xc0;
    xb7; xfd; x93; x26; x36; x3f; xf7; xcc; x34; xa5; xe5; xf1; x71; xd8; x31; x15;
    x04; xc7; x23; xc3; x18; x96; x05; x9a; x07; x12; x80; xe2; xeb; x27; xb2; x75;
    x09; x83; x2c; x1a; x1b; x6e; x5a; xa0; x52; x3b; xd6; xb3; x29; xe3; x2f; x84;
    x53; xd1; x00; xed; x20; xfc; xb1; x5b; x6a; xcb; xbe; x39; x4a; x4c; x58; xcf;
    xd0; xef; xaa; xfb; x43; x4d; x33; x85; x45; xf9; x02; x7f; x50; x3c; x9f; xa8;
    x51; xa3; x40; x8f; x92; x9d; x38; xf5; xbc; xb6; xda; x21; x10; xff; xf3; xd2;
    xcd; x0c; x13; xec; x5f; x97; x44; x17; xc4; xa7; x7e; x3d; x64; x5d; x19; x73;
    x60; x81; x4f; xdc; x22; x2a; x90; x88; x46; xee; xb8; x14; xde; x5e; x0b; xdb;
    xe0; x32; x3a; x0a; x49; x06; x24; x5c; xc2; xd3; xac; x62; x91; x95; xe4; x79;
    xe7; xc8; x37; x6d; x8d; xd5; x4e; xa9; x6c; x56; xf4; xea; x65; x7a; xae; x08;
    xba; x78; x25; x2e; x1c; xa6; xb4; xc6; xe8; xdd; x74; x1f; x4b; xbd; x8b; x8a;
    x70; x3e; xb5; x66; x48; x03; xf6; x0e; x61; x35; x57; xb9; x86; xc1; x1d; x9e;
    xe1; xf8; x98; x11; x69; xd9; x8e; x94; x9b; x1e; x87; xe9; xce; x55; x28; xdf;
    x8c; xa1; x89; x0d; xbf; xe6; x42; x68; x41; x99; x2d; x0f; xb0; x54; xbb; x16
  ].

Definition inv_sbox_table : bytes :=
  [
    x52; x09; x6a; xd5; x30; x36; xa5; x38; xbf; x40; xa3; x9e; x81; xf3; xd7; xfb;
    x7c; xe3; x39; x82; x9b; x2f; xff; x87; x34; x8e; x43; x44; xc4; xde; xe9; xcb;
    x54; x7b; x94; x32; xa6; xc2; x23; x3d; xee; x4c; x95; x0b; x42; xfa; xc3; x4e;
    x08; x2e; xa1; x66; x28; xd9; x24; xb2; x76; x5b; xa2; x49; x6d; x8b; xd1; x25;
    x72; xf8; xf6; x64; x86; x68; x98; x16; xd4; xa4; x5c; xcc; x5d; x65; xb6; x92;
    x6c; x70; x48; x50; xfd; xed; xb9; xda; x5e; x15; x46; x57; xa7; x8d; x9d; x84;
    x90; xd8; xab; x00; x8c; xbc; xd3; x0a; xf7; xe4; x58; x05; xb8; xb3; x45; x06;
    xd0; x2c; x1e; x8f; xca; x3f; x0f; x02; xc1; xaf; xbd; x03; x01; x13; x8a; x6b;
    x3a; x91; x11; x41; x4f; x67; xdc; xea; x97; xf2; xcf; xce; xf0; xb4; xe6; x73;
    x96; xac; x74; x22; xe7; xad; x35; x85; xe2; xf9; x37; xe8; x1c; x75; xdf; x6e;
    x47; xf1; x1a; x71; x1d; x29; xc5; x89; x6f; xb7; x62; x0e; xaa; x18; xbe; x1b;
    xfc; x56; x3e; x4b; xc6; xd2; x79; x20; x9a; xdb; xc0; xfe; x78; xcd; x5a; xf4;
    x1f; xdd; xa8; x33; x88; x07; xc7; x31; xb1; x12; x10; x59; x27; x80; xec; x5f;
    x60; x51; x7f; xa9; x19; xb5; x4a; x0d; x2d; xe5; x7a; x9f; x93; xc9; x9c; xef;
    xa0; xe0; x3b; x4d; xae; x2a; xf5; xb0; xc8; xeb; xbb; x3c; x83; x53; x99; x61;
    x17; x2b; x04; x7e; xba; x77; xd6; x26; xe1; x69; x14; x63; x55; x21; x0c; x7d
  ].

Definition sbox (b : byte) : byte :=
  nth (Z.to_nat (Z_of_byte b)) sbox_table x00.

Definition inv_sbox (b : byte) : byte :=
  nth (Z.to_nat (Z_of_byte b)) inv_sbox_table x00.

(** Multiplication by [x] in GF(2^8) modulo [x^8 + x^4 + x^3 + x + 1]:
    a shift to the left, and [0x1b] xored in when the top bit was set. *)
Definition xtime_bits (a : bits8) : bits8 :=
  let '(a0, (a1, (a2, (a3, (a4, (a5, (a6, a7))))))) := a in
  (a7, (xorb a0 a7, (a1, (xorb a2 a7, (xorb a3 a7, (a4, (a5, a6))))))).

Definition xtime (b : byte) : byte :=
  Byte.of_bits (xtime_bits (Byte.to_bits b)).

Definition mul2 (b : byte) : byte := xtime b.
Definition mul3 (b : byte) : byte := bxor (xtime b) b.
Definition mul9 (b : byte) : byte := bxor (xtime (xtime (xtime b))) b.
Definition mul11 (b : byte) : byte :=
  bxor (bxor (xtime (xtime (xtime b))) (xtime b)) b.
Definition mul13 (b : byte) : byte :=
  bxor (bxor (xtime (xtime (xtime b))) (xtime (xtime b))) b.
Definition mul14 (b : byte) : byte :=
  bxor (bxor (xtime (xtime (xtime b))) (xtime (xtime b))) (xtime b).

Definition map_column (f : byte -> byte) (c : column) : column :=
  let '(a0, a1, a2, a3) := c in (f a0, f a1, f a2, f a3).

Definition xor_column (c k : column) : column :=
  let '(a0, a1, a2, a3) := c in
  let '(k0, k1, k2, k3) := k in
  (bxor a0 k0, bxor a1 k1, bxor a2 k2, bxor a3 k3).

Definition map_block (f : column -> column) (s : block) : block :=
  let '(c0, c1, c2, c3) := s in (f c0, f c1, f c2, f c3).

Definition sub_bytes : block -> block := map_block (map_column sbox).
Definition inv_sub_bytes : block -> block := map_block (map_column inv_sbox).

Definition shift_rows (s : block) : block :=
  let '((a0, a1, a2, a3), (b0, b1, b2, b3),
        (c0, c1, c2, c3), (d0, d1, d2, d3)) := s in
  ((a0, b1, c2, d3), (b0, c1, d2, a3), (c0, d1, a2, b3), (d0, a1, b2, c3)).

Definition inv_shift_rows (s : block) : block :=
  let '((a0, a1, a2, a3), (b0, b1, b2, b3),
        (c0, c1, c2, c3), (d0, d1, d2, d3)) := s in
  ((a0, d1, c2, b3), (b0, a1, d2, c3), (c0, b1, a2, d3), (d0, c1, b2, a3)).

Definition mix_column (c : column) : column :=
  let '(s0, s1, s2, s3) := c in
  (bxor (bxor (mul2 s0) (mul3 s1)) (bxor s2 s3),
   bxor (bxor s0 (mul2 s1)) (bxor (mul3 s2) s3),
   bxor (bxor s0 s1) (bxor (mul2 s2) (mul3 s3)),
   bxor (bxor (mul3 s0) s1) (bxor s2 (mul2 s3))).

Definition inv_mix_column (c : column) : column :=
  let '(s0, s1, s2, s3) := c in
  (bxor (bxor (mul14 s0) (mul11 s1)) (bxor (mul13 s2) (mul9 s3)),
   bxor (bxor (mul9 s0) (mul14 s1)) (bxor (mul11 s2) (mul13 s3)),
   bxor (bxor (mul13 s0) (mul9 s1)) (bxor (mul14 s2) (mul11 s3)),
   bxor (bxor (mul11 s0) (mul13 s1)) (bxor (mul9 s2) (mul14 s3))).

Definition mix_columns : block -> block := map_block mix_column.
Definition inv_mix_columns : block -> block := map_block inv_mix_column.

Definition add_round_key (k s : block) : block :=
  let '(c0, c1, c2, c3) := s in
  let '(k0, k1, k2, k3) := k in
  (xor_column c0 k0, xor_column c1 k1, xor_column c2 k2, xor_column c3 k3).

(** Key expansion: the next round key from the previous one. *)
Definition next_round_key (k : block) (rcon : byte) : block :=
  let '(w0, w1, w2, (t0, t1, t2, t3)) := k in
  let g := (bxor (sbox t1) rcon, sbox t2, sbox t3, sbox t0) in
  let w0' := xor_column w0 g in
  let w1' := xor_column w1 w0' in
  let w2' := xor_column w2 w1' in
  let w3' := xor_column (t0, t1, t2, t3) w2' in
  (w0', w1', w2', w3').

Definition rcons : bytes := [x01; x02; x04; x08; x10; x20; x40; x80; x1b; x36].

(** The round keys after the first: [k1; ...; k10]. *)
Fixpoint expand_from (k : block) (rc : bytes) : list block :=
  match rc with
  | [] => []
  | r :: rc' => let k' := next_round_key k r in k' :: expand_from k' rc'
  end.

Definition key_expansion (key : block) : list block := expand_from key rcons.

Definition round (s k : block) : block :=
  add_round_key k (mix_columns (shift_rows (sub_bytes s))).

Definition final_round (s k : block) : block :=
  add_round_key k (shift_rows (sub_bytes s)).

Definition inv_round (k s : block) : block :=
  inv_sub_bytes (inv_shift_rows (inv_mix_columns (add_round_key k s))).

Definition inv_final_round (k s : block) : block :=
  inv_sub_bytes (inv_shift_rows (add_round_key k s)).

(** The cipher for a key schedule [k0], [middle], [klast]. *)
Definition cipher (k0 : block) (middle : list block) (klast : block)
  (s : block) : block :=
  final_round (fold_left round middle (add_round_key k0 s)) klast.

Definition inv_cipher (k0 : block) (middle : list block) (klast : block)
  (s : block) : block :=
  add_round_key k0 (fold_right inv_round (inv_final_round klast s) middle).

Definition encrypt_block (key s : block) : block :=
  let ks := key_expansion key in
  cipher key (List.removelast ks) (List.last ks key) s.

Definition decrypt_block (key s : block) : block :=
  let ks := key_expansion key in
  inv_cipher key (List.removelast ks) (List.last ks key) s.

Definition block_of_bytes (bs : bytes) : option block :=
  match bs with
  | [a0; a1; a2; a3; b0; b1; b2; b3; c0; c1; c2; c3; d0; d1; d2; d3] =>
      Some ((a0, a1, a2, a3), (b0, b1, b2, b3),
            (c0, c1, c2, c3), (d0, d1, d2, d3))
  | _ => None
  end.

Definition bytes_of_block (s : block) : bytes :=
  let '((a0, a1, a2, a3), (b0, b1, b2, b3),
        (c0, c1, c2, c3), (d0, d1, d2, d3)) := s in
  [a0; a1; a2; a3; b0; b1; b2; b3; c0; c1; c2; c3; d0; d1; d2; d3].

(** Split into 16-byte blocks; [None] unless the length is a multiple
    of 16. *)
Fixpoint blocks_of_bytes (bs : bytes) : option (list block) :=
  match bs with
  | [] => Some []
  | a0 :: a1 :: a2 :: a3 :: b0 :: b1 :: b2 :: b3
    :: c0 :: c1 :: c2 :: c3 :: d0 :: d1 :: d2 :: d3 :: rest =>
      match blocks_of_bytes rest with
      | Some l =>
          Some (((a0, a1, a2, a3), (b0, b1, b2, b3),
                 (c0, c1, c2, c3), (d0, d1, d2, d3)) :: l)
      | None => None
      end
  | _ => None
  end.

(** CBC: each plaintext block is xored with the previous ciphertext block
    (the IV for the first) before it is enciphered. *)
Fixpoint cbc_encrypt_blocks (key prev : block) (ps : list block) : list block :=
  match ps with
  | [] => []
  | p :: ps' =>
      let c := encrypt_block key (add_round_key prev p) in
      c :: cbc_encrypt_blocks key c ps'
  end.

Fixpoint cbc_decrypt_blocks (key prev : block) (cs : list block) : list block :=
  match cs with
  | [] => []
  | c :: cs' =>
      add_round_key prev (decrypt_block key c) :: cbc_decrypt_blocks key c cs'
  end.

(** [padding.PKCS7(128).padder()]: between 1 and 16 bytes, each equal to
    their number. *)
Definition pkcs7_pad (data : bytes) : bytes :=
  let n := (16 - length data mod 16)%nat in
  data ++ repeat (byte_of_Z (Z.of_nat n)) n.

(** [padding.PKCS7(128).unpadder()]: [None] is its [ValueError]
    ("Invalid padding bytes."). *)
Definition pkcs7_unpad (padded : bytes) : option bytes :=
  match rev padded with
  | [] => None
  | p :: _ =>
      let n := Z.to_nat (Z_of_byte p) in
      if (1 <=? n)%nat && (n <=? 16)%nat && (n <=? length padded)%nat
         && forallb (Byte.eqb p) (take_last n padded)
      then Some (drop_last n padded)
      else None
  end.

End aes.

(** ** cryptography.fernet *)

Module fernet.

(** The two halves of the decoded key that a [Fernet] object holds. *)
Record Fernet : Type := {
  signing_key : bytes;
  encryption_key : bytes
}.

(** [Fernet.generate_key()], from the 32 bytes of [os.urandom(32)]. *)
Definition generate_key (random32 : bytes) : bytes :=
  base64.urlsafe_b64encode random32.

(** [Fernet(key)]: a [ValueError] unless the key decodes to 32 bytes. *)
Definition new (key : bytes) : result Fernet :=
  match base64.urlsafe_b64decode key with
  | Raise _ => Raise ValueError
  | Ok k =>
      if negb (length k =? 32)%nat then Raise ValueError
      else Ok {| signing_key := firstn 16 k; encryption_key := skipn 16 k |}
  end.

(** [Cipher(algorithms.AES(key), modes.CBC(iv))]: both must be 16 bytes
    here, anything else is a [ValueError] of the constructors. *)
Definition cbc_params (key iv : bytes) : result (aes.block * aes.block) :=
  match aes.block_of_bytes key, aes.block_of_bytes iv with
  | Some k, Some v => Ok (k, v)
  | _, _ => Raise ValueError
  end.

(** [int.to_bytes(length=8, byteorder='big')]. *)
Definition timestamp_bytes (current_time : Z) : result bytes :=
  if (0 <=? current_time) && (current_time <? 2 ^ 64)
  then Ok (be_bytes 8 current_time)
  else Raise OverflowError.

(** [Fernet._encrypt_from_parts]. *)
Definition encrypt_from_parts (f : Fernet) (data : bytes) (current_time : Z)
  (iv : bytes) : result bytes :=
  let padded_data := aes.pkcs7_pad data in
  try! kv := cbc_params (encryption_key f) iv in
  match aes.blocks_of_bytes padded_data with
  | None => Raise ValueError
  | Some ps =>
      let ciphertext :=
        concat (map aes.bytes_of_block
                    (aes.cbc_encrypt_blocks (fst kv) (snd kv) ps)) in
      try! ts := timestamp_bytes current_time in
      let basic_parts := [x80] ++ ts ++ iv ++ ciphertext in
      let hmac := hashlib.hmac_sha256 (signing_key f) basic_parts in
      Ok (base64.urlsafe_b64encode (basic_parts ++ hmac))
  end.

(** [Fernet._get_unverified_token_data]. *)
Definition get_unverified_token_data (token : bytes) : result bytes :=
  match base64.urlsafe_b64decode token with
  | Raise _ => Raise InvalidToken
  | Ok data =>
      match data with
      | [] => Raise InvalidToken
      | v :: _ =>
          if negb (Byte.eqb v x80) then Raise InvalidToken
          else if (length data <? 9)%nat then Raise InvalidToken
          else Ok data
      end
  end.

(** [Fernet._verify_signature]. *)
Definition verify_signature (f : Fernet) (data : bytes) : result unit :=
  if bytes_eqb (hashlib.hmac_sha256 (signing_key f) (drop_last 32 data))
               (take_last 32 data)
  then Ok tt
  else Raise InvalidToken.

(** [Fernet._decrypt_data] with [time_info = None] (no [ttl]). *)
Definition decrypt_data (f : Fernet) (data : bytes) : result bytes :=
  try! _ := verify_signature f data in
  let iv := firstn 16 (skipn 9 data) in
  let ciphertext := firstn (length data - 32 - 25) (skipn 25 data) in
  try! kv := cbc_params (encryption_key f) iv in
  match aes.blocks_of_bytes ciphertext with
  | None => Raise InvalidToken
  | Some cs =>
      let plaintext_padded :=
        concat (map aes.bytes_of_block
                    (aes.cbc_decrypt_blocks (fst kv) (snd kv) cs)) in
      match aes.pkcs7_unpad plaintext_padded with
      | None => Raise InvalidToken
      | Some unpadded => Ok unpadded
      end
  end.

(** [Fernet.decrypt(token)]. *)
Definition decrypt (f : Fernet) (token : bytes) : result bytes :=
  try! data := get_unverified_token_data token in
  decrypt_data f data.

End fernet.

(** ** pyotp *)

Module pyotp.

(** [pyotp.TOTP(s)]: six digits, SHA-1, a step of 30 seconds. *)
Record TOTP : Type := {
  secret : string;
  digits : Z;
  interval : Z
}.

Definition new (s : string) : TOTP :=
  {| secret := s; digits := 6; interval := 30 |}.

Definition is_ascii (c : ascii) : bool := (N_of_ascii c <? 128)%N.

(** [OTP.byte_secret]: the secret padded with [=] to a multiple of 8 and
    decoded from Base32; a non-ASCII secret is a [ValueError]. *)
Definition byte_secret (t : TOTP) : result bytes :=
  let s := secret t in
  let missing_padding := (String.length s mod 8)%nat in
  let s :=
    if negb (missing_padding =? 0)%nat
    then (s ++ string_of_list_ascii (repeat "="%char (8 - missing_padding)))%string
    else s in
  if negb (forallb is_ascii (list_ascii_of_string s)) then Raise ValueError
  else base64.b32decode (bytes_of_string s).

(** [OTP.int_to_bytestring(i)]: big-endian, at least 8 bytes. *)
Definition int_to_bytestring (i : Z) : bytes :=
  let n := if i <? 2 ^ 64 then 8%nat else Z.to_nat (Z.log2 i / 8 + 1) in
  be_bytes n i.

(** [str(n)] of a non-negative integer. *)
Definition str (n : Z) : string :=
  DecimalString.NilZero.string_of_uint (N.to_uint (Z.to_N n)).

(** [s[-n:]]. *)
Definition str_suffix (n : nat) (s : string) : string :=
  string_of_list_ascii (take_last n (list_ascii_of_string s)).

(** [OTP.generate_otp]: HOTP (RFC 4226) with dynamic truncation. *)
Definition generate_otp (t : TOTP) (input : Z) : result string :=
  if input <? 0 then Raise ValueError
  else
    try! k := byte_secret t in
    let hmac_hash := hashlib.hmac_sha1 k (int_to_bytestring input) in
    let at_ (i : nat) := Z_of_byte (nth i hmac_hash x00) in
    let offset := Z.to_nat (Z.land (Z_of_byte (List.last hmac_hash x00)) 0xF) in
    let code :=
      Z.lor (Z.lor (Z.lor (Z.shiftl (Z.land (at_ offset) 0x7F) 24)
                           (Z.shiftl (Z.land (at_ (offset + 1)%nat) 0xFF) 16))
                    (Z.shiftl (Z.land (at_ (offset + 2)%nat) 0xFF) 8))
            (Z.land (at_ (offset + 3)%nat) 0xFF) in
    let str_code := str (10000000000 + code mod 10 ^ digits t) in
    Ok (str_suffix (Z.to_nat (digits t)) str_code).

(** [TOTP.timecode]: [int(seconds / interval)], rounding towards zero. *)
Definition timecode (t : TOTP) (for_time : Z) : Z :=
  Z.quot for_time (interval t).

(** [TOTP.at(for_time, counter_offset)]. *)
Definition at_time (t : TOTP) (for_time counter_offset : Z) : result string :=
  generate_otp t (timecode t for_time + counter_offset).

(** [utils.strings_equal] on ASCII text, where the NFKC normalisation it
    applies first is the identity. *)
Definition strings_equal (s1 s2 : string) : bool := String.eqb s1 s2.

(** The loop [for i in range(-valid_window, valid_window + 1)]. *)
Fixpoint verify_window (t : TOTP) (otp : string) (for_time : Z)
  (offsets : list Z) : result bool :=
  match offsets with
  | [] => Ok false
  | i :: rest =>
      try! c := at_time t for_time i in
      if strings_equal otp c then Ok true
      else verify_window t otp for_time rest
  end.

(** [range(lo, hi)]. *)
Definition range (lo hi : Z) : list Z :=
  map (fun k => lo + Z.of_nat k) (seq 0 (Z.to_nat (hi - lo))).

(** [TOTP.verify(otp, for_time, valid_window)]. *)
Definition verify (t : TOTP) (otp : string) (for_time valid_window : Z)
  : result bool :=
  if negb (valid_window =? 0) then
    verify_window t otp for_time (range (- valid_window) (valid_window + 1))
  else
    try! c := at_time t for_time 0 in
    Ok (strings_equal otp c).

(** One [random.choice] among the 32 characters of the Base32 alphabet,
    from one draw of the system's random source. *)
Definition choice (draw : byte) : ascii :=
  ascii_of_N (Byte.to_N (base64.b32_char (Z_of_byte draw mod 32))).

(** [pyotp.random_base32()], from its 32 draws. *)
Definition random_base32 (draws : bytes) : string :=
  string_of_list_ascii (map choice draws).

End pyotp.

(** ** The world the program runs in *)

(** One record of [users.json], as [register_user] writes it: every field is
    a string, the byte fields in hexadecimal. *)
Module user_data.
Record t : Type := {
  salt : string;
  encrypted_hash : string;
  key : string;
  nonce : string;
  otp_secret : string
}.
End user_data.

(** The lines the program prints. *)
Inductive message : Type :=
| MsgUserExists                          (* "User already exists!" *)
| MsgRegistered (username : string)      (* "User ... registered successfully!" *)
| MsgScanQr                              (* "Scan this QR code using ..." *)
| MsgQrAscii (username otp_secret : string)  (* the QR code of the URI *)
| MsgEnterManually (otp_secret : string) (* "Alternatively, enter this manually: ..." *)
| MsgUserNotFound                        (* "User not found!" *)
| MsgBiometricFailed                     (* "Biometric authentication failed!" *)
| MsgOtpFailed                           (* "OTP verification failed!" *)
| MsgAuthSuccessful.                     (* "Authentication Successful!" *)

Inductive prompt : Type :=
| PromptOtp.                             (* "Enter OTP from your authenticator app: " *)

(** What the program does to its environment, in order. *)
Inductive event : Type :=
| Print (m : message)
| Input (p : prompt)
| Now.

(** A feature vector: the IEEE-754 bit patterns of the [float64] elements of
    the array, in C order. *)
Abbreviation ndarray := (list Z).

Record world : Type := {
  (** the file [USER_DB]; [None] when it does not exist *)
  users_json : option (gmap string user_data.t);
  (** the lines still to be read from the terminal *)
  stdin : list string;
  (** the interaction so far, oldest first *)
  trace : list event;
  (** seconds since the epoch *)
  clock : Z;
  (** the bytes the system's random source will deliver *)
  entropy : nat -> byte;
  (** Python's per-process [hash] of a string *)
  str_hash : string -> Z;
  (** numpy's global generator: the [k]-th sample after seeding with [s] *)
  np_random : Z -> nat -> Z
}.

Definition set_users_json (u : option (gmap string user_data.t)) (w : world)
  : world :=
  {| users_json := u; stdin := stdin w; trace := trace w; clock := clock w;
     entropy := entropy w; str_hash := str_hash w; np_random := np_random w |}.

Definition set_stdin (s : list string) (w : world) : world :=
  {| users_json := users_json w; stdin := s; trace := trace w;
     clock := clock w; entropy := entropy w; str_hash := str_hash w;
     np_random := np_random w |}.

Definition log (e : event) (w : world) : world :=
  {| users_json := users_json w; stdin := stdin w; trace := trace w ++ [e];
     clock := clock w; entropy := entropy w; str_hash := str_hash w;
     np_random := np_random w |}.

Definition set_entropy (g : nat -> byte) (w : world) : world :=
  {| users_json := users_json w; stdin := stdin w; trace := trace w;
     clock := clock w; entropy := g; str_hash := str_hash w;
     np_random := np_random w |}.

(** Computations that read and change the world and may raise. *)
Definition M (A : Type) : Type := world -> result A * world.

Definition ret {A} (a : A) : M A := fun w => (Ok a, w).

Definition bind {A B} (m : M A) (k : A -> M B) : M B :=
  fun w =>
    match m w with
    | (Ok a, w') => k a w'
    | (Raise e, w') => (Raise e, w')
    end.

Definition lift {A} (r : result A) : M A := fun w => (r, w).

Notation "x <- m ;; k" := (bind m (fun x => k))
  (at level 20, m at level 99, k at level 200).
Notation "' pat <- m ;; k" := (bind m (fun x => match x with pat => k end))
  (at level 20, pat pattern, m at level 99, k at level 200).
Notation "m ;;; k" := (bind m (fun _ => k))
  (at level 100, right associativity).

(** [print(...)]. *)
Definition print (m : message) : M unit := fun w => (Ok tt, log (Print m) w).

(** [input(prompt)]: the prompt is shown, then a line is read; [EOFError]
    when there is none. *)
Definition input (p : prompt) : M string :=
  fun w =>
    match stdin w with
    | [] => (Raise EOFError, log (Input p) w)
    | line :: rest => (Ok line, set_stdin rest (log (Input p) w))
    end.

(** [os.urandom(n)]. *)
Definition urandom (n : nat) : M bytes :=
  fun w =>
    (Ok (map (entropy w) (seq 0 n)),
     set_entropy (fun i => entropy w (n + i)%nat) w).

(** The clock, as [time.time()] and [datetime.datetime.now()] read it. *)
Definition now : M Z := fun w => (Ok (clock w), log Now w).

(** ** biometric.py *)

Module biometric.

(** [ndarray.tobytes()] of a [float64] array on a little-endian host. *)
Definition tobytes (a : ndarray) : bytes := concat (map (le_bytes 8) a).

(** [generate_mock_fingerprint(username)]: the generator is seeded with
    [hash(username) % 2**32] and 128 samples are drawn. *)
Definition generate_mock_fingerprint (username : string) : M ndarray :=
  fun w =>
    let seed := str_hash w username mod 2 ^ 32 in
    (Ok (map (np_random w seed) (seq 0 128)), w).

End biometric.

(** ** hashing.py *)

Module hashing.

(** [generate_hash(data, salt=None)]. *)
Definition generate_hash (data : ndarray) (salt : option bytes)
  : M (bytes * bytes) :=
  salt <- match salt with
          | None => urandom 16
          | Some s => ret s
          end ;;
  let data_bytes := biometric.tobytes data in
  hash_obj <- lift (match hashlib.pbkdf2_hmac_sha256 data_bytes salt 100000 with
                    | Some h => Ok h
                    | None => Raise ValueError
                    end) ;;
  ret (salt, hash_obj).

(** [verify_hash(data, salt, stored_hash)]. *)
Definition verify_hash (data : ndarray) (salt stored_hash : bytes) : M bool :=
  '(_, new_hash) <- generate_hash data (Some salt) ;;
  ret (bytes_eqb new_hash stored_hash).

End hashing.

(** ** encryption.py *)

Module encryption.

(** [encrypt_data(data)]: the tuple is built from left to right, so the
    key is drawn first, then the nonce, then the IV inside [f.encrypt]. *)
Definition encrypt_data (data : bytes) : M (bytes * bytes * bytes) :=
  random32 <- urandom 32 ;;
  let key := fernet.generate_key random32 in
  f <- lift (fernet.new key) ;;
  nonce <- urandom 16 ;;
  current_time <- now ;;
  iv <- urandom 16 ;;
  encrypted_data <- lift (fernet.encrypt_from_parts f data current_time iv) ;;
  ret (key, nonce, encrypted_data).

(** [decrypt_data(key, nonce, encrypted_data)]. *)
Definition decrypt_data (key nonce encrypted_data : bytes) : result bytes :=
  try! f := fernet.new key in
  fernet.decrypt f encrypted_data.

End encryption.

(** ** totp.py *)

Module totp.

(** [generate_otp_secret()]. *)
Definition generate_otp_secret : M string :=
  draws <- urandom 32 ;;
  ret (pyotp.random_base32 draws).

(** [generate_otp(secret)]: [TOTP.now()]. *)
Definition generate_otp (secret : string) : M string :=
  let totp := pyotp.new secret in
  for_time <- now ;;
  lift (pyotp.generate_otp totp (pyotp.timecode totp for_time)).

(** [verify_otp(secret, code)]: [TOTP.verify(code)] with its defaults,
    [for_time=None] and [valid_window=0]. *)
Definition verify_otp (secret code : string) : M bool :=
  let totp := pyotp.new secret in
  for_time <- now ;;
  lift (pyotp.verify totp code for_time 0).

End totp.

(** ** auth.py *)

Module auth.

(** [load_users()]: the content of the file, [{}] when it is missing. *)
Definition load_users : M (gmap string user_data.t) :=
  fun w =>
    match users_json w with
    | Some users => (Ok users, w)
    | None => (Ok ∅, w)
    end.

(** [save_users(users)]. *)
Definition save_users (users : gmap string user_data.t) : M unit :=
  fun w => (Ok tt, set_users_json (Some users) w).

(** [generate_qr_code(username, otp_secret)]. *)
Definition generate_qr_code (username otp_secret : string) : M unit :=
  print MsgScanQr ;;;
  print (MsgQrAscii username otp_secret) ;;;
  print (MsgEnterManually otp_secret).

(** [register_user(username)]. *)
Definition register_user (username : string) : M unit :=
  users <- load_users ;;
  match users !! username with
  | Some _ => print MsgUserExists
  | None =>
      fingerprint <- biometric.generate_mock_fingerprint username ;;
      '(salt, biometric_hash) <- hashing.generate_hash fingerprint None ;;
      '(key, nonce, encrypted_hash) <- encryption.encrypt_data biometric_hash ;;
      otp_secret <- totp.generate_otp_secret ;;
      let users :=
        <[username := {| user_data.salt := base64.hex salt;
                         user_data.encrypted_hash := base64.hex encrypted_hash;
                         user_data.key := base64.hex key;
                         user_data.nonce := base64.hex nonce;
                         user_data.otp_secret := otp_secret |}]> users in
      save_users users ;;;
      print (MsgRegistered username) ;;;
      generate_qr_code username otp_secret
  end.

(** [authenticate_user(username)]. *)
Definition authenticate_user (username : string) : M unit :=
  users <- load_users ;;
  match users !! username with
  | None => print MsgUserNotFound
  | Some user_data =>
      salt <- lift (base64.fromhex (user_data.salt user_data)) ;;
      encrypted_hash <-
        lift (base64.fromhex (user_data.encrypted_hash user_data)) ;;
      key <- lift (base64.fromhex (user_data.key user_data)) ;;
      nonce <- lift (base64.fromhex (user_data.nonce user_data)) ;;
      let otp_secret := user_data.otp_secret user_data in
      new_fingerprint <- biometric.generate_mock_fingerprint username ;;
      '(_, new_hash) <- hashing.generate_hash new_fingerprint (Some salt) ;;
      decrypted_hash <-
        lift (encryption.decrypt_data key nonce encrypted_hash) ;;
      if negb (bytes_eqb new_hash decrypted_hash) then
        print MsgBiometricFailed
      else
        otp <- input PromptOtp ;;
        ok <- totp.verify_otp otp_secret otp ;;
        if negb ok then print MsgOtpFailed
        else print MsgAuthSuccessful
  end.

End auth.

(** ** Sample data

    The shared secret of the test vectors of RFC 4226 and RFC 6238
    (the ASCII string "12345678901234567890" in Base32), and a world with a
    given database, terminal input and clock. *)

Definition rfc_secret : string := "GEZDGNBVGY3TQOJQGEZDGNBVGY3TQOJQ".

Definition sample_world (users : option (gmap string user_data.t))
  (lines : list string) (t : Z) : world :=
  {| users_json := users;
     stdin := lines;
     trace := [];
     clock := t;
     entropy := fun i => byte_of_Z (Z.of_nat (7 * i + 3));
     str_hash := fun s => Z.of_nat (String.length s);
     np_random := fun seed k => seed + Z.of_nat k |}.

Definition flip_bit (k : nat) (b : byte) : byte :=
  bxor b (byte_of_Z (2 ^ Z.of_nat k)).

(** [bs] with bit [k] of its byte [i] flipped. *)
Definition flip_bit_at (i k : nat) (bs : bytes) : bytes :=
  firstn i bs ++ match skipn i bs with
                 | b :: rest => flip_bit k b :: rest
                 | [] => []
                 end.

Definition sample_digest : bytes :=
  hashlib.sha256 (bytes_of_string "fingerprint").

Definition sample_salt : bytes :=
  map (fun i => byte_of_Z (Z.of_nat i)) (seq 0 16).

(** The key, nonce and token that [encrypt_data] returns for the sample
    digest. *)
Definition sealed_sample : bytes * bytes * bytes :=
  match fst (encryption.encrypt_data sample_digest
               (sample_world None [] 1700000000)) with
  | Ok out => out
  | Raise _ => ([], [], [])
  end.

(** A record in the layout [register_user] writes, around a given token. *)
Definition sample_record (token : bytes) : user_data.t :=
  {| user_data.salt := base64.hex sample_salt;
     user_data.encrypted_hash := base64.hex token;
     user_data.key := base64.hex (fst (fst sealed_sample));
     user_data.nonce := base64.hex (snd (fst sealed_sample));
     user_data.otp_secret := rfc_secret |}.

Definition enrolled_record : user_data.t := sample_record (snd sealed_sample).

Definition enrolled_world : world :=
  sample_world (Some {["alice"%string := enrolled_record]}) [] 59.

(** The sealed token with the lowest bit of its last byte flipped, and the
    record that holds it. *)
Definition tampered_token : bytes := flip_bit_at 139 0 (snd sealed_sample).

Definition tampered_record : user_data.t := sample_record tampered_token.

Definition tampered_world : world :=
  sample_world (Some {["alice"%string := tampered_record]})
    ["287082"%string] 59.

(** [decrypt_data] raised [InvalidToken]. *)
Definition rejected (r : result bytes) : bool :=
  match r with
  | Raise InvalidToken => true
  | _ => false
  end.

(** Byte positions of the sample token, one in each of its parts (version,
    timestamp, IV, ciphertext, tag), and bits to flip in them. *)
Definition sampled_flips : list (nat * nat) :=
  list_prod [0; 1; 13; 60; 100; 139]%nat [0; 3; 5; 6]%nat.

(** The sample token with any of the sampled bits flipped is rejected. *)
Definition sampled_flips_rejected : bool :=
  forallb
    (fun ik =>
       rejected (encryption.decrypt_data (fst (fst sealed_sample))
                   (snd (fst sealed_sample))
                   (flip_bit_at (fst ik) (snd ik) (snd sealed_sample))))
    sampled_flips.

(** ** Notions used in the statements *)

(** What [load_users] returns in [w]. *)
Definition stored_users (w : world) : gmap string user_data.t :=
  match users_json w with
  | Some users => users
  | None => ∅
  end.

(** What [generate_mock_fingerprint username] returns in [w]. *)
Definition fingerprint (w : world) (username : string) : ndarray :=
  map (np_random w (str_hash w username mod 2 ^ 32)) (seq 0 128).

(** The digest [generate_hash] derives from a fresh capture and [salt]. *)
Abbreviation fresh_digest w username salt :=
  (hashlib.pbkdf2_block (biometric.tobytes (fingerprint w username)) salt 100000).

(** The four hexadecimal fields of a record decode to these bytes. *)
Definition decoded_record (rec : user_data.t)
  (salt encrypted_hash key nonce : bytes) : Prop :=
  base64.fromhex (user_data.salt rec) = Ok salt
  /\ base64.fromhex (user_data.encrypted_hash rec) = Ok encrypted_hash
  /\ base64.fromhex (user_data.key rec) = Ok key
  /\ base64.fromhex (user_data.nonce rec) = Ok nonce.

(** The biometric gate of [authenticate_user]: the user has a record, the
    record decodes, and the stored ciphertext opens to the digest of a fresh
    capture under the stored salt. *)
Definition biometric_passes (w : world) (username : string) : Prop :=
  exists rec salt encrypted_hash key nonce,
    stored_users w !! username = Some rec
    /\ decoded_record rec salt encrypted_hash key nonce
    /\ encryption.decrypt_data key nonce encrypted_hash
       = Ok (fresh_digest w username salt).

(** The ways a run of [authenticate_user] ends, stage by stage: its result
    and the events it adds to the trace.  The one-time code is asked for
    and checked in the last four only. *)
Inductive verify_run (w : world) (username : string)
  : result unit -> list event -> Prop :=
| RejectedAtLookup :
    stored_users w !! username = None ->
    verify_run w username (Ok tt) [Print MsgUserNotFound]
| RaisedAtBiometric (e : exn) :
    is_Some (stored_users w !! username) ->
    ~ biometric_passes w username ->
    verify_run w username (Raise e) []
| RejectedAtBiometric :
    is_Some (stored_users w !! username) ->
    ~ biometric_passes w username ->
    verify_run w username (Ok tt) [Print MsgBiometricFailed]
| RaisedAtPrompt :
    biometric_passes w username ->
    verify_run w username (Raise EOFError) [Input PromptOtp]
| RaisedAtOtp (e : exn) :
    biometric_passes w username ->
    verify_run w username (Raise e) [Input PromptOtp; Now]
| RejectedAtOtp :
    biometric_passes w username ->
    verify_run w username (Ok tt) [Input PromptOtp; Now; Print MsgOtpFailed]
| Success :
    biometric_passes w username ->
    verify_run w username (Ok tt)
      [Input PromptOtp; Now; Print MsgAuthSuccessful].

(** The last stage of [authenticate_user], from the [input] call on. *)
Definition otp_stage (otp_secret : string) : M unit :=
  otp <- input PromptOtp ;;
  ok <- totp.verify_otp otp_secret otp ;;
  if negb ok then print MsgOtpFailed else print MsgAuthSuccessful.

(** ** Exhaustive checks over bytes

    Boolean checks that are run over all 256 bytes (or all pairs) to settle
    the bit-level identities of the Base64 codec. *)

Definition all_bytes : bytes :=
  map (fun n => byte_of_Z (Z.of_nat n)) (seq 0 256).

Module b64check.
Import base64.

(** A character through the URL-safe encoder's and then the decoder's
    translation. *)
Definition tr (c : byte) : byte :=
  urlsafe_decode_translation (urlsafe_encode_translation c).

(** The character of sextet [v] is not the pad and decodes to [v]. *)
Definition valid_char (v : Z) : bool :=
  let c := tr (b64_char v) in
  negb (Byte.eqb c pad_char)
  && match b64_value c with
     | Some v' => v' =? v
     | None => false
     end.

(** The four sextets of three bytes. *)
Definition s0 (a : byte) : Z := Z.shiftr (Z_of_byte a) 2.
Definition s1 (a b : byte) : Z :=
  Z.lor (Z.shiftl (Z.land (Z_of_byte a) 3) 4) (Z.shiftr (Z_of_byte b) 4).
Definition s2 (b c : byte) : Z :=
  Z.lor (Z.shiftl (Z.land (Z_of_byte b) 15) 2) (Z.shiftr (Z_of_byte c) 6).
Definition s3 (c : byte) : Z := Z.land (Z_of_byte c) 63.

Definition check0 (a : byte) : bool := valid_char (s0 a).

Definition check1 (a b : byte) : bool :=
  valid_char (s1 a b)
  && Byte.eqb (byte_of_Z (Z.lor (Z.shiftl (s0 a) 2) (Z.shiftr (s1 a b) 4))) a
  && (Z.land (s1 a b) 15 =? Z.shiftr (Z_of_byte b) 4).

Definition check2 (b c : byte) : bool :=
  valid_char (s2 b c)
  && Byte.eqb (byte_of_Z (Z.lor (Z.shiftl (Z.shiftr (Z_of_byte b) 4) 4)
                                (Z.shiftr (s2 b c) 2))) b
  && (Z.land (s2 b c) 3 =? Z.shiftr (Z_of_byte c) 6).

Definition check3 (c : byte) : bool :=
  valid_char (s3 c)
  && Byte.eqb (byte_of_Z (Z.lor (Z.shiftl (Z.shiftr (Z_of_byte c) 6) 6) (s3 c))) c.

(** Decoding the encoding of [s] gives [s] back. *)
Definition rt_ok (s : bytes) : bool :=
  match a2b_loop (map tr (b2a_base64 s)) 0 0 0 with
  | Ok r => bytes_eqb r s
  | Raise _ => false
  end.

End b64check.


(** Worlds that differ only in what a run may consume or print. *)
Definition same_setting (w w' : world) : Prop :=
  users_json w' = users_json w /\ clock w' = clock w
  /\ str_hash w' = str_hash w /\ np_random w' = np_random w.

(** ** Further notions

    Notions and checks for the statements about the parts of the code
    beyond the stages of verification. *)



(** A decimal digit. *)
Definition is_digit (c : ascii) : bool :=
  ((48 <=? N_of_ascii c) && (N_of_ascii c <=? 57))%N.

(** A string of exactly six decimal digits. *)
Definition six_digits (s : string) : Prop :=
  String.length s = 6%nat
  /\ forallb is_digit (list_ascii_of_string s) = true.

(** The [n] bytes the random source of [w] delivers from position [off]
    on. *)
Definition drawn (w : world) (off n : nat) : bytes :=
  map (fun i => entropy w (off + i)%nat) (seq 0 n).

(** [w'] is [w] after a run that drew [n] bytes from the random source,
    read [k] lines from the terminal and added [evs] to the trace, and
    left the clock and the two generators alone. *)
Definition ran (n k : nat) (evs : list event) (w w' : world) : Prop :=
  (forall i, entropy w' i = entropy w (n + i)%nat)
  /\ stdin w' = skipn k (stdin w)
  /\ trace w' = trace w ++ evs
  /\ clock w' = clock w
  /\ str_hash w' = str_hash w
  /\ np_random w' = np_random w.

(** The record [register_user] stores for [username] in [w], around the
    token it sealed. *)
Definition new_record (w : world) (token : bytes) : user_data.t :=
  {| user_data.salt := base64.hex (drawn w 0 16);
     user_data.encrypted_hash := base64.hex token;
     user_data.key := base64.hex (fernet.generate_key (drawn w 16 32));
     user_data.nonce := base64.hex (drawn w 48 16);
     user_data.otp_secret := pyotp.random_base32 (drawn w 80 32) |}.


(** The world [register_user] leaves for a new user whose digest it sealed
    into [token]. *)
Definition registered (username : string) (w : world) (token : bytes) : world :=
  let secret := pyotp.random_base32 (drawn w 80 32) in
  log (Print (MsgEnterManually secret))
    (log (Print (MsgQrAscii username secret))
       (log (Print MsgScanQr)
          (log (Print (MsgRegistered username))
             (set_users_json
                (Some (<[username := new_record w token]> (stored_users w)))
                (set_entropy (fun i => entropy w (112 + i)%nat)
                   (log Now w)))))).

(** The number of [input] calls among the events. *)
Definition inputs (evs : list event) : nat :=
  length (List.filter (fun e => match e with Input _ => true | _ => false end) evs).

(** [w'] holds what is left of the terminal input of [w] after some lines
    were read. *)
Definition reads_on (w w' : world) : Prop :=
  exists k, stdin w' = skipn k (stdin w).

(** A world with no database yet, the clock at 59 and one line waiting on
    the terminal: the code of that time for the secret that enrolment
    draws from the sample random source. *)
Definition new_user_world : world := sample_world None ["327245"%string] 59.

(** A world whose clock does not fit the timestamp of a token. *)
Definition overflow_world : world := sample_world None [] (-1).

(** A record whose salt is not hexadecimal. *)
Definition corrupted_record : user_data.t :=
  {| user_data.salt := "zz"; user_data.encrypted_hash := "";
     user_data.key := ""; user_data.nonce := "";
     user_data.otp_secret := rfc_secret |}.

Definition corrupted_world : world :=
  sample_world (Some {["alice"%string := corrupted_record]}) [] 59.

(** ** The menu: [view_all_users], [delete_all_users] and [main]

    The lines and prompts of the menu are kept apart from those of
    enrolment and verification.  The console of the whole program is a
    transcript in which the events of a called function appear, in order,
    between the menu's own. *)

Inductive menu_message : Type :=
| MsgNoUsers                        (* "No users found!" *)
| MsgRegisteredUsers                (* "Registered Users:" *)
| MsgUserLines (users : gset string)
    (* the lines "- <username>", one for each key of the dictionary, in
       the dictionary's order *)
| MsgAllDeleted                     (* "All users have been deleted." *)
| MsgCanceled                       (* "Operation canceled." *)
| MsgTitle                          (* "Biometric Two-Factor Authentication System" *)
| MsgOption (n : nat)               (* the line of option [n] of the menu *)
| MsgExiting                        (* "Exiting..." *)
| MsgInvalidChoice.                 (* "Invalid choice, try again!" *)

Inductive menu_prompt : Type :=
| PromptConfirmDelete  (* "Are you sure you want to delete all users? (yes/no): " *)
| PromptChoice         (* "Select an option: " *)
| PromptUsername.      (* "Enter username: " *)

Inductive console_event : Type :=
| Called (e : event)
| Say (m : menu_message)
| Ask (p : menu_prompt).

Record console : Type := {
  inner : world;
  transcript : list console_event
}.

(** Computations of the menu. *)
Definition Menu (A : Type) : Type := console -> result A * console.

Definition cbind {A B} (m : Menu A) (k : A -> Menu B) : Menu B :=
  fun s =>
    match m s with
    | (Ok a, s') => k a s'
    | (Raise e, s') => (Raise e, s')
    end.

Notation "x <~ m ;; k" := (cbind m (fun x => k))
  (at level 20, m at level 99, k at level 200).
Notation "m ;;~ k" := (cbind m (fun _ => k))
  (at level 100, right associativity).

(** A call of a function of the modules above: its events are what it added
    to the trace. *)
Definition call {A} (m : M A) : Menu A :=
  fun s =>
    let '(r, w') := m (inner s) in
    (r, {| inner := w';
           transcript :=
             transcript s
             ++ map Called (skipn (length (trace (inner s))) (trace w')) |}).

Definition say (m : menu_message) : Menu unit :=
  fun s => (Ok tt, {| inner := inner s; transcript := transcript s ++ [Say m] |}).

(** [input(prompt)] of the menu: as [input] above, on the same terminal. *)
Definition ask (p : menu_prompt) : Menu string :=
  fun s =>
    match stdin (inner s) with
    | [] =>
        (Raise EOFError,
         {| inner := inner s; transcript := transcript s ++ [Ask p] |})
    | line :: rest =>
        (Ok line,
         {| inner := set_stdin rest (inner s);
            transcript := transcript s ++ [Ask p] |})
    end.

(** [str.lower], as far as the comparison with ["yes"] can tell: the only
    characters whose lower case is one of [y], [e], [s] are the capitals
    [Y], [E], [S]. *)
Definition lower_char (c : ascii) : ascii :=
  let n := N_of_ascii c in
  if ((65 <=? n) && (n <=? 90))%N then ascii_of_N (n + 32) else c.

Fixpoint lower (s : string) : string :=
  match s with
  | EmptyString => EmptyString
  | String c rest => String (lower_char c) (lower rest)
  end.

(** *** auth.py, the two commands of the menu *)

Module auth_menu.

(** [view_all_users()]. *)
Definition view_all_users : Menu unit :=
  users <~ call auth.load_users ;;
  if decide (users = ∅) then say MsgNoUsers
  else
    say MsgRegisteredUsers ;;~
    say (MsgUserLines (dom users)).

(** [delete_all_users()]. *)
Definition delete_all_users : Menu unit :=
  confirmation <~ ask PromptConfirmDelete ;;
  if String.eqb (lower confirmation) "yes" then
    call (auth.save_users ∅) ;;~
    say MsgAllDeleted
  else say MsgCanceled.

End auth_menu.

(** *** main.py *)

Module main.

(** What one turn of the loop of [main] does with the choice it read, when
    the choice is not ["5"]. *)
Definition command (choice : string) : Menu unit :=
  if String.eqb choice "1" then
    username <~ ask PromptUsername ;;
    call (auth.register_user username)
  else if String.eqb choice "2" then
    username <~ ask PromptUsername ;;
    call (auth.authenticate_user username)
  else if String.eqb choice "3" then auth_menu.view_all_users
  else if String.eqb choice "4" then auth_menu.delete_all_users
  else say MsgInvalidChoice.

(** The menu is printed and a choice read. *)
Definition prompt_choice : Menu string :=
  say MsgTitle ;;~
  say (MsgOption 1) ;;~
  say (MsgOption 2) ;;~
  say (MsgOption 3) ;;~
  say (MsgOption 4) ;;~
  say (MsgOption 5) ;;~
  ask PromptChoice.

(** The loop [while True] of [main()], for at most [fuel] turns; [None]
    when they do not suffice. *)
Fixpoint main_loop (fuel : nat) (s : console)
  : option (result unit * console) :=
  match fuel with
  | O => None
  | S fuel =>
      match prompt_choice s with
      | (Raise e, s1) => Some (Raise e, s1)
      | (Ok choice, s1) =>
          if String.eqb choice "5" then Some (say MsgExiting s1)
          else
            match command choice s1 with
            | (Raise e, s2) => Some (Raise e, s2)
            | (Ok _, s2) => main_loop fuel s2
            end
      end
  end.

(** [main()]: every turn reads a line or ends the loop, so one turn more
    than there are lines is enough. *)
Definition main (s : console) : option (result unit * console) :=
  main_loop (S (length (stdin (inner s)))) s.

End main.

(** The program started in [w]. *)
Definition start (w : world) : console := {| inner := w; transcript := [] |}.

(** The lines of the menu, as every turn of the loop prints them, and the
    prompt that follows. *)
Definition menu_lines : list console_event :=
  [Say MsgTitle; Say (MsgOption 1); Say (MsgOption 2); Say (MsgOption 3);
   Say (MsgOption 4); Say (MsgOption 5); Ask PromptChoice].

(** The choices the menu knows. *)
Definition is_choice (line : string) : bool :=
  existsb (String.eqb line) ["1"; "2"; "3"; "4"; "5"]%string.

(** The spellings of "yes". *)
Definition yes_spellings : list string :=
  ["yes"; "yeS"; "yEs"; "yES"; "Yes"; "YeS"; "YEs"; "YES"]%string.


(** * Properties *)

Local Opaque hashlib.pbkdf2_block.

(** ** Bytes and lists *)

Lemma Z_of_byte_range b : 0 <= Z_of_byte b < 256.
Proof.
  unfold Z_of_byte. pose proof (Byte.to_N_bounded b). lia.
Qed.

Lemma byte_of_Z_of_byte b : byte_of_Z (Z_of_byte b) = b.
Proof.
  unfold byte_of_Z. rewrite Z.mod_small by apply Z_of_byte_range.
  unfold Z_of_byte. rewrite N2Z.id, Byte.of_to_N. reflexivity.
Qed.

Lemma Z_of_byte_of_Z z : 0 <= z < 256 -> Z_of_byte (byte_of_Z z) = z.
Proof.
  intros H. unfold byte_of_Z. rewrite Z.mod_small by lia.
  destruct (Byte.of_N (Z.to_N z)) as [b|] eqn:E.
  - apply Byte.to_of_N in E. unfold Z_of_byte. rewrite E. lia.
  - apply Byte.of_N_None_iff in E. lia.
Qed.

Lemma drop_last_app {A} (l t : list A) n :
  length t = n -> drop_last n (l ++ t) = l.
Proof.
  intros <-. unfold drop_last. rewrite length_app.
  replace (length l + length t - length t)%nat with (length l + 0)%nat by lia.
  rewrite firstn_app_2, app_nil_r. reflexivity.
Qed.

Lemma take_last_app {A} (l t : list A) n :
  length t = n -> take_last n (l ++ t) = t.
Proof.
  intros <-. unfold take_last. rewrite length_app.
  replace (length l + length t - length t)%nat with (length l) by lia.
  rewrite skipn_app, skipn_all, Nat.sub_diag. reflexivity.
Qed.

Lemma bytes_eqb_refl (a : bytes) : bytes_eqb a a = true.
Proof.
  induction a as [|x a IH]; [reflexivity|]. cbn.
  rewrite IH, (Byte.byte_dec_lb eq_refl). reflexivity.
Qed.

Lemma bytes_eqb_eq (a b : bytes) : bytes_eqb a b = true <-> a = b.
Proof.
  split; [|intros ->; apply bytes_eqb_refl].
  revert b. induction a as [|x a IH]; intros [|y b] H; try discriminate; [reflexivity|].
  cbn in H. apply andb_true_iff in H as [H1 H2].
  apply Byte.byte_dec_bl in H1. apply IH in H2. congruence.
Qed.

Lemma pkcs7_pad_length (data : bytes) :
  exists n, length (aes.pkcs7_pad data) = (16 * n)%nat.
Proof.
  unfold aes.pkcs7_pad. exists (S (length data / 16)).
  rewrite length_app, repeat_length.
  pose proof (Nat.div_mod_eq (length data) 16).
  pose proof (Nat.mod_upper_bound (length data) 16). lia.
Qed.

Lemma forallb_repeat {A} (f : A -> bool) x n :
  f x = true -> forallb f (repeat x n) = true.
Proof. intros H. induction n; cbn; [reflexivity|]. now rewrite H, IHn. Qed.

Lemma pkcs7_unpad_pad (data : bytes) :
  aes.pkcs7_unpad (aes.pkcs7_pad data) = Some data.
Proof.
  unfold aes.pkcs7_pad, aes.pkcs7_unpad.
  pose proof (Nat.mod_upper_bound (length data) 16) as Hm.
  set (n := (16 - length data mod 16)%nat).
  assert (Hn : (1 <= n <= 16)%nat) by (unfold n; lia).
  set (p := byte_of_Z (Z.of_nat n)).
  assert (Hp : Z.to_nat (Z_of_byte p) = n).
  { unfold p. rewrite Z_of_byte_of_Z by lia. lia. }
  rewrite rev_app_distr, rev_repeat.
  destruct n as [|k] eqn:En; [lia|]. cbn [repeat app]. rewrite Hp.
  change (p :: repeat p k) with (repeat p (S k)).
  pose proof (repeat_length p (S k)) as Hl.
  rewrite (take_last_app _ _ _ Hl), (drop_last_app _ _ _ Hl).
  rewrite forallb_repeat by apply (Byte.byte_dec_lb eq_refl).
  rewrite length_app, repeat_length.
  replace (1 <=? S k)%nat with true by (symmetry; apply Nat.leb_le; lia).
  replace (S k <=? 16)%nat with true by (symmetry; apply Nat.leb_le; lia).
  replace (S k <=? length data + S k)%nat with true by (symmetry; apply Nat.leb_le; lia).
  reflexivity.
Qed.

Lemma be_bytes_length n z : length (be_bytes n z) = n.
Proof. induction n; cbn; [reflexivity|]. now rewrite IHn. Qed.

Lemma sha256_length msg : length (hashlib.sha256 msg) = 32%nat.
Proof.
  unfold hashlib.sha256.
  destruct (fold_left _ _ _) as [[[[[[[h0 h1] h2] h3] h4] h5] h6] h7].
  rewrite !length_app, !be_bytes_length. reflexivity.
Qed.

Lemma hmac_sha256_length k m : length (hashlib.hmac_sha256 k m) = 32%nat.
Proof. apply sha256_length. Qed.

Lemma all_bytes_complete b : In b all_bytes.
Proof.
  unfold all_bytes. apply in_map_iff. exists (Z.to_nat (Z_of_byte b)).
  pose proof (Z_of_byte_range b). split.
  - rewrite Z2Nat.id by lia. apply byte_of_Z_of_byte.
  - apply in_seq. lia.
Qed.

Lemma forall_byte (P : byte -> bool) :
  forallb P all_bytes = true -> forall b, P b = true.
Proof.
  intros H b. rewrite forallb_forall in H. apply H, all_bytes_complete.
Qed.

Lemma forall_byte2 (P : byte -> byte -> bool) :
  forallb (fun a => forallb (P a) all_bytes) all_bytes = true ->
  forall a b, P a b = true.
Proof.
  intros H a b. apply (forall_byte (P a)). revert a. apply forall_byte. exact H.
Qed.

(** ** Published test vectors

    The library routines, evaluated on the vectors of their standards. *)

Example sha1_abc :
  base64.hex (hashlib.sha1 (bytes_of_string "abc"))
  = "a9993e364706816aba3e25717850c26c9cd0d89d"%string.
Proof. vm_compute. reflexivity. Qed.

Example sha256_abc :
  base64.hex (hashlib.sha256 (bytes_of_string "abc"))
  = "ba7816bf8f01cfea414140de5dae2223b00361a396177a9cb410ff61f20015ad"%string.
Proof. vm_compute. reflexivity. Qed.

Example hmac_sha256_fox :
  base64.hex (hashlib.hmac_sha256 (bytes_of_string "key")
                (bytes_of_string "The quick brown fox jumps over the lazy dog"))
  = "f7bc83f430538424b13298e6aa6fb143ef4d59a14946175997479dbc2d1a3cd8"%string.
Proof. vm_compute. reflexivity. Qed.

Example pbkdf2_two_iterations :
  option_map base64.hex
    (hashlib.pbkdf2_hmac_sha256 (bytes_of_string "password")
       (bytes_of_string "salt") 2)
  = Some "ae4d0c95af6b46d32d0adff928f06dd02a303f8ef3c251dfd6e2d85a95474c43"%string.
Proof. vm_compute. reflexivity. Qed.

(** FIPS 197, appendix C.1. *)
Example aes128_fips197 :
  option_map (fun kp => base64.hex (aes.bytes_of_block
                                       (aes.encrypt_block (fst kp) (snd kp))))
    (match base64.fromhex "000102030405060708090a0b0c0d0e0f",
           base64.fromhex "00112233445566778899aabbccddeeff" with
     | Ok k, Ok p =>
         match aes.block_of_bytes k, aes.block_of_bytes p with
         | Some k, Some p => Some (k, p)
         | _, _ => None
         end
     | _, _ => None
     end)
  = Some "69c4e0d86a7b0430d8cdb78070b4c55a"%string.
Proof. vm_compute. reflexivity. Qed.

(** The vector of the Fernet specification ([generate.json]). *)
Example fernet_spec_vector :
  match fernet.new (bytes_of_string "cw_0x689RpI-jtRR7oE8h_eQsKImvJapLeSbXpwF4e4="),
        base64.fromhex "000102030405060708090a0b0c0d0e0f" with
  | Ok f, Ok iv =>
      option_map string_of_bytes
        (match fernet.encrypt_from_parts f (bytes_of_string "hello") 499162800 iv with
         | Ok token => Some token
         | Raise _ => None
         end)
  | _, _ => None
  end
  = Some ("gAAAAAAdwJ6wAAECAwQFBgcICQoLDA0ODy021cpGVWKZ_eEwCGM4BLLF_5CV9dOPmrhuVUPgJobwOz7JcbmrR64jVmpU4IwqDA=="%string).
Proof. vm_compute. reflexivity. Qed.

(** RFC 4226, appendix D (counters 0 to 3) and RFC 6238, appendix B. *)
Example rfc_hotp_totp_codes :
  map (fun t => pyotp.at_time (pyotp.new rfc_secret) t 0)
      [0; 30; 60; 90; 59; 1111111109; 1234567890; 2000000000]
  = map Ok ["755224"; "287082"; "359152"; "969429";
            "287082"; "081804"; "005924"; "279037"]%string.
Proof. vm_compute. reflexivity. Qed.

(** ** AES: the inverse cipher undoes the cipher *)

Lemma to_bits_inj (a b : byte) : Byte.to_bits a = Byte.to_bits b -> a = b.
Proof.
  intros H. rewrite <- (Byte.of_bits_to_bits a), <- (Byte.of_bits_to_bits b).
  now rewrite H.
Qed.

Lemma to_bits_bxor a b :
  Byte.to_bits (bxor a b) = xor_bits (Byte.to_bits a) (Byte.to_bits b).
Proof. apply Byte.to_bits_of_bits. Qed.

Lemma to_bits_xtime a :
  Byte.to_bits (aes.xtime a) = aes.xtime_bits (Byte.to_bits a).
Proof. apply Byte.to_bits_of_bits. Qed.

Ltac bits_of b :=
  let t := fresh "t" in
  generalize (Byte.to_bits b); intros t;
  destruct t as (?b0 & ?b1 & ?b2 & ?b3 & ?b4 & ?b5 & ?b6 & ?b7).

Ltac bitblast :=
  apply to_bits_inj;
  unfold aes.mul2, aes.mul3, aes.mul9, aes.mul11, aes.mul13, aes.mul14;
  repeat first [rewrite to_bits_bxor | rewrite to_bits_xtime].

Lemma bxor_involutive a k : bxor (bxor a k) k = a.
Proof.
  bitblast. bits_of a. bits_of k. cbn.
  repeat (f_equal; [btauto|]). btauto.
Qed.

Lemma bxor_comm a b : bxor a b = bxor b a.
Proof.
  bitblast. bits_of a. bits_of b. cbn.
  repeat (f_equal; [btauto|]). btauto.
Qed.

Lemma inv_sbox_sbox b : aes.inv_sbox (aes.sbox b) = b.
Proof. destruct b; reflexivity. Qed.

Lemma inv_shift_rows_shift_rows s : aes.inv_shift_rows (aes.shift_rows s) = s.
Proof. destruct s as [[[[[[a0 a1] a2] a3] [[[b0 b1] b2] b3]] [[[c0 c1] c2] c3]] [[[d0 d1] d2] d3]]. reflexivity. Qed.

Lemma inv_mix_column_mix_column c : aes.inv_mix_column (aes.mix_column c) = c.
Proof.
  destruct c as [[[s0 s1] s2] s3]. unfold aes.mix_column, aes.inv_mix_column.
  f_equal; [f_equal; [f_equal|]|].
  all: bitblast; bits_of s0; bits_of s1; bits_of s2; bits_of s3; cbn.
  all: repeat (f_equal; [btauto|]); btauto.
Qed.

Lemma xor_column_involutive c k : aes.xor_column (aes.xor_column c k) k = c.
Proof.
  destruct c as [[[a0 a1] a2] a3], k as [[[k0 k1] k2] k3]; cbn.
  now rewrite !bxor_involutive.
Qed.

Lemma add_round_key_involutive k s :
  aes.add_round_key k (aes.add_round_key k s) = s.
Proof.
  destruct s as [[[c0 c1] c2] c3], k as [[[k0 k1] k2] k3]; cbn.
  now rewrite !xor_column_involutive.
Qed.

Lemma map_block_inverse f g :
  (forall c, g (f c) = c) -> forall s, aes.map_block g (aes.map_block f s) = s.
Proof.
  intros H [[[c0 c1] c2] c3]; cbn. now rewrite !H.
Qed.

Lemma inv_sub_bytes_sub_bytes s : aes.inv_sub_bytes (aes.sub_bytes s) = s.
Proof.
  apply map_block_inverse. intros [[[a0 a1] a2] a3]; unfold aes.map_column.
  now rewrite !inv_sbox_sbox.
Qed.

Lemma inv_mix_columns_mix_columns s : aes.inv_mix_columns (aes.mix_columns s) = s.
Proof. apply map_block_inverse, inv_mix_column_mix_column. Qed.

Lemma inv_round_round k s : aes.inv_round k (aes.round s k) = s.
Proof.
  unfold aes.inv_round, aes.round.
  now rewrite add_round_key_involutive, inv_mix_columns_mix_columns,
    inv_shift_rows_shift_rows, inv_sub_bytes_sub_bytes.
Qed.

Lemma inv_final_round_final_round k s :
  aes.inv_final_round k (aes.final_round s k) = s.
Proof.
  unfold aes.inv_final_round, aes.final_round.
  now rewrite add_round_key_involutive, inv_shift_rows_shift_rows,
    inv_sub_bytes_sub_bytes.
Qed.

Lemma inv_rounds_rounds klast middle : forall s,
  fold_right aes.inv_round
    (aes.inv_final_round klast (aes.final_round (fold_left aes.round middle s) klast))
    middle = s.
Proof.
  induction middle as [|k ks IH]; intros s; cbn.
  - apply inv_final_round_final_round.
  - rewrite IH. apply inv_round_round.
Qed.

Lemma inv_cipher_cipher k0 middle klast s :
  aes.inv_cipher k0 middle klast (aes.cipher k0 middle klast s) = s.
Proof.
  unfold aes.inv_cipher, aes.cipher.
  rewrite inv_rounds_rounds. apply add_round_key_involutive.
Qed.

Lemma decrypt_block_encrypt_block key s :
  aes.decrypt_block key (aes.encrypt_block key s) = s.
Proof. apply inv_cipher_cipher. Qed.

Lemma cbc_decrypt_encrypt key ps : forall iv,
  aes.cbc_decrypt_blocks key iv (aes.cbc_encrypt_blocks key iv ps) = ps.
Proof.
  induction ps as [|p ps IH]; intros iv; cbn; [reflexivity|].
  now rewrite IH, decrypt_block_encrypt_block, add_round_key_involutive.
Qed.

Lemma blocks_of_bytes_concat bs :
  aes.blocks_of_bytes (concat (map aes.bytes_of_block bs)) = Some bs.
Proof.
  induction bs as [|b bs IH]; [reflexivity|].
  destruct b as [[[[[[a0 a1] a2] a3] [[[b0 b1] b2] b3]] [[[c0 c1] c2] c3]] [[[d0 d1] d2] d3]].
  cbn. cbn in IH. now rewrite IH.
Qed.

Lemma concat_blocks_of_bytes bs : forall l,
  aes.blocks_of_bytes l = Some bs -> concat (map aes.bytes_of_block bs) = l.
Proof.
  induction bs as [|b bs IH]; intros l H.
  - destruct l as [|x0 l]; [reflexivity|].
    do 15 (destruct l as [|? l]; [discriminate|]).
    cbn in H. destruct (aes.blocks_of_bytes l); discriminate.
  - destruct l as [|x0 l]; [discriminate|].
    do 15 (destruct l as [|? l]; [discriminate|]).
    cbn in H. destruct (aes.blocks_of_bytes l) as [bs'|] eqn:E; [|discriminate].
    injection H as <- <-. cbn. now rewrite (IH l E).
Qed.

Lemma blocks_of_bytes_total n : forall l : bytes,
  length l = (16 * n)%nat -> exists bs, aes.blocks_of_bytes l = Some bs.
Proof.
  induction n as [|n IH]; intros l H.
  - destruct l; [now exists []|discriminate].
  - do 16 (destruct l as [|? l]; [cbn in H; lia|]).
    destruct (IH l) as [bs E]; [cbn in H; lia|].
    eexists. cbn. rewrite E. reflexivity.
Qed.

Lemma block_of_bytes_total (l : bytes) :
  length l = 16%nat -> exists b, aes.block_of_bytes l = Some b.
Proof.
  intros H. do 16 (destruct l as [|? l]; [discriminate|]).
  destruct l; [|discriminate]. eexists. reflexivity.
Qed.


(** ** Base64 and hexadecimal round trips *)

Module b64round.
Import base64 b64check.

Lemma check0_ok a : check0 a = true.
Proof. revert a. apply forall_byte. vm_compute. reflexivity. Qed.
Lemma check3_ok a : check3 a = true.
Proof. revert a. apply forall_byte. vm_compute. reflexivity. Qed.
Lemma check1_ok a b : check1 a b = true.
Proof. revert a b. apply forall_byte2. vm_compute. reflexivity. Qed.
Lemma check2_ok a b : check2 a b = true.
Proof. revert a b. apply forall_byte2. vm_compute. reflexivity. Qed.

Lemma a2b_loop_valid v rest q l p :
  valid_char v = true ->
  a2b_loop (tr (b64_char v) :: rest) q l p =
  match q with
  | 0%nat => a2b_loop rest 1 v 0
  | 1%nat =>
      consb (byte_of_Z (Z.lor (Z.shiftl l 2) (Z.shiftr v 4)))
            (a2b_loop rest 2 (Z.land v 15) 0)
  | 2%nat =>
      consb (byte_of_Z (Z.lor (Z.shiftl l 4) (Z.shiftr v 2)))
            (a2b_loop rest 3 (Z.land v 3) 0)
  | _ => consb (byte_of_Z (Z.lor (Z.shiftl l 6) v)) (a2b_loop rest 0 0 0)
  end.
Proof.
  unfold valid_char. intros H. apply andb_true_iff in H as [Hp Hv].
  apply negb_true_iff in Hp.
  cbn [a2b_loop]. rewrite Hp.
  destruct (b64_value (tr (b64_char v))) as [v'|]; [|discriminate].
  apply Z.eqb_eq in Hv. subst v'. reflexivity.
Qed.

Lemma tr_pad : tr pad_char = pad_char.
Proof. reflexivity. Qed.

Lemma list_ind3 {A} (P : list A -> Prop) :
  P [] -> (forall a, P [a]) -> (forall a b, P [a; b]) ->
  (forall a b c l, P l -> P (a :: b :: c :: l)) ->
  forall l, P l.
Proof.
  intros H0 H1 H2 H3.
  fix IH 1. intros [|a [|b [|c l]]];
    [apply H0 | apply H1 | apply H2 | apply H3, IH].
Qed.

Lemma rt_ok_spec s : rt_ok s = true -> a2b_loop (map tr (b2a_base64 s)) 0 0 0 = Ok s.
Proof.
  unfold rt_ok. destruct (a2b_loop _ _ _ _) as [r|]; [|discriminate].
  intros H. apply bytes_eqb_eq in H. now subst.
Qed.

Lemma rt_ok_1 a : rt_ok [a] = true.
Proof. revert a. apply forall_byte. vm_compute. reflexivity. Qed.

Lemma rt_ok_2 a b : rt_ok [a; b] = true.
Proof. revert a b. apply forall_byte2. vm_compute. reflexivity. Qed.

Lemma a2b_b2a_tr (s : bytes) :
  a2b_loop (map tr (b2a_base64 s)) 0 0 0 = Ok s.
Proof.
  induction s as [|a|a b|a b c l IH] using list_ind3.
  - reflexivity.
  - apply rt_ok_spec, rt_ok_1.
  - apply rt_ok_spec, rt_ok_2.
  - pose proof (check0_ok a) as C0. pose proof (check1_ok a b) as C1.
    pose proof (check2_ok b c) as C2. pose proof (check3_ok c) as C3.
    unfold check0 in C0. unfold check1 in C1. unfold check2 in C2.
    unfold check3 in C3.
    apply andb_true_iff in C1 as [C1 L1]. apply andb_true_iff in C1 as [V1 O1].
    apply andb_true_iff in C2 as [C2 L2]. apply andb_true_iff in C2 as [V2 O2].
    apply andb_true_iff in C3 as [V3 O3].
    apply Byte.byte_dec_bl in O1, O2, O3. apply Z.eqb_eq in L1, L2.
    change (b2a_base64 (a :: b :: c :: l)) with
      (b64_char (s0 a) :: b64_char (s1 a b) :: b64_char (s2 b c)
         :: b64_char (s3 c) :: b2a_base64 l).
    cbn [map].
    rewrite (a2b_loop_valid _ _ _ _ _ C0).
    rewrite (a2b_loop_valid _ _ _ _ _ V1), O1, L1.
    rewrite (a2b_loop_valid _ _ _ _ _ V2), O2, L2.
    rewrite (a2b_loop_valid _ _ _ _ _ V3), O3.
    rewrite IH. reflexivity.
Qed.

Lemma urlsafe_b64decode_encode (s : bytes) :
  urlsafe_b64decode (urlsafe_b64encode s) = Ok s.
Proof.
  unfold urlsafe_b64decode, urlsafe_b64encode, a2b_base64.
  rewrite map_map. apply a2b_b2a_tr.
Qed.

End b64round.



(** ** Fernet *)

Lemma fernet_new_generate_key (r : bytes) :
  length r = 32%nat ->
  fernet.new (fernet.generate_key r) =
  Ok {| fernet.signing_key := firstn 16 r; fernet.encryption_key := skipn 16 r |}.
Proof.
  intros H. unfold fernet.new, fernet.generate_key.
  rewrite b64round.urlsafe_b64decode_encode, H. reflexivity.
Qed.

Lemma cbc_params_ok (key iv : bytes) :
  length key = 16%nat -> length iv = 16%nat ->
  exists k v, fernet.cbc_params key iv = Ok (k, v)
              /\ aes.block_of_bytes key = Some k
              /\ aes.block_of_bytes iv = Some v.
Proof.
  intros Hk Hv. unfold fernet.cbc_params.
  destruct (block_of_bytes_total key Hk) as [k ->].
  destruct (block_of_bytes_total iv Hv) as [v ->]. eauto.
Qed.

Lemma timestamp_bytes_ok t :
  0 <= t < 2 ^ 64 -> fernet.timestamp_bytes t = Ok (be_bytes 8 t).
Proof.
  intros H. unfold fernet.timestamp_bytes.
  replace (0 <=? t) with true by (symmetry; apply Z.leb_le; lia).
  replace (t <? 2 ^ 64) with true by (symmetry; apply Z.ltb_lt; lia).
  reflexivity.
Qed.

Lemma get_unverified_token_data_encode (data rest : bytes) :
  data = x80 :: rest -> (9 <= length data)%nat ->
  fernet.get_unverified_token_data (base64.urlsafe_b64encode data) = Ok data.
Proof.
  intros -> H. unfold fernet.get_unverified_token_data.
  rewrite b64round.urlsafe_b64decode_encode.
  change (Byte.eqb x80 x80) with true. cbn [negb].
  replace (length (x80 :: rest) <? 9)%nat with false
    by (symmetry; apply Nat.ltb_ge; lia).
  reflexivity.
Qed.

Lemma fernet_decrypt_encrypt f data t iv :
  length (fernet.encryption_key f) = 16%nat ->
  length iv = 16%nat ->
  0 <= t < 2 ^ 64 ->
  exists token,
    fernet.encrypt_from_parts f data t iv = Ok token
    /\ fernet.decrypt f token = Ok data.
Proof.
  intros Hk Hiv Ht.
  destruct (cbc_params_ok _ _ Hk Hiv) as (k & v & Hkv & _ & _).
  destruct (pkcs7_pad_length data) as [n Hn].
  destruct (blocks_of_bytes_total n _ Hn) as [ps Hps].
  unfold fernet.encrypt_from_parts.
  rewrite Hkv. cbn [rbind fst snd]. rewrite Hps, (timestamp_bytes_ok t Ht).
  cbn [rbind].
  set (ct := concat (map aes.bytes_of_block (aes.cbc_encrypt_blocks k v ps))).
  set (ts := be_bytes 8 t).
  set (basic := [x80] ++ ts ++ iv ++ ct).
  set (tag := hashlib.hmac_sha256 (fernet.signing_key f) basic).
  eexists. split; [reflexivity|].
  assert (Htag : length tag = 32%nat) by apply hmac_sha256_length.
  assert (Hts : length ts = 8%nat) by apply be_bytes_length.
  assert (Hlen : length (basic ++ tag) = (57 + length ct)%nat).
  { unfold basic. rewrite !length_app, Htag, Hts, Hiv. cbn. lia. }
  unfold fernet.decrypt.
  rewrite (get_unverified_token_data_encode (basic ++ tag) (ts ++ iv ++ ct ++ tag));
    [| unfold basic; rewrite <- !app_assoc; reflexivity | lia].
  cbn [rbind]. unfold fernet.decrypt_data, fernet.verify_signature.
  rewrite (drop_last_app _ _ _ Htag), (take_last_app _ _ _ Htag).
  fold tag. rewrite bytes_eqb_refl. cbn [rbind].
  assert (Hiv' : firstn 16 (skipn 9 (basic ++ tag)) = iv).
  { unfold basic. change ([x80] ++ ts ++ iv ++ ct) with (x80 :: ts ++ iv ++ ct).
    rewrite <- !app_comm_cons, <- !app_assoc.
    change 9%nat with (S 8). rewrite skipn_cons.
    rewrite (drop_app_length' ts _ 8 Hts).
    apply take_app_length'. now rewrite Hiv. }
  assert (Hct : firstn (length (basic ++ tag) - 32 - 25) (skipn 25 (basic ++ tag)) = ct).
  { rewrite Hlen. replace (57 + length ct - 32 - 25)%nat with (length ct) by lia.
    unfold basic. change ([x80] ++ ts ++ iv ++ ct) with (x80 :: ts ++ iv ++ ct).
    rewrite <- !app_comm_cons, <- !app_assoc.
    change 25%nat with (S 24). rewrite skipn_cons.
    rewrite (app_assoc ts iv).
    rewrite (drop_app_length' (ts ++ iv) _ 24) by (rewrite length_app; lia).
    apply take_app_length. }
  rewrite Hiv', Hct, Hkv. cbn [rbind fst snd].
  unfold ct. rewrite blocks_of_bytes_concat, cbc_decrypt_encrypt.
  rewrite (concat_blocks_of_bytes _ _ Hps), pkcs7_unpad_pad. reflexivity.
Qed.

Lemma fernet_seal_open (r32 iv data : bytes) (t : Z) :
  length r32 = 32%nat -> length iv = 16%nat -> 0 <= t < 2 ^ 64 ->
  exists f token,
    fernet.new (fernet.generate_key r32) = Ok f
    /\ fernet.encrypt_from_parts f data t iv = Ok token
    /\ forall nonce,
         encryption.decrypt_data (fernet.generate_key r32) nonce token = Ok data.
Proof.
  intros Hr Hiv Ht.
  set (f := {| fernet.signing_key := firstn 16 r32;
               fernet.encryption_key := skipn 16 r32 |}).
  assert (Hk : length (fernet.encryption_key f) = 16%nat).
  { cbn [fernet.encryption_key f]. rewrite length_skipn. lia. }
  destruct (fernet_decrypt_encrypt f data t iv Hk Hiv Ht) as (token & H1 & H2).
  exists f, token. split; [apply (fernet_new_generate_key r32 Hr)|].
  split; [exact H1|]. intros nonce.
  unfold encryption.decrypt_data. rewrite (fernet_new_generate_key r32 Hr).
  exact H2.
Qed.

(** A token is opened only if the bytes it decodes to carry a valid tag
    under the signing key. *)
Lemma decrypt_requires_valid_tag f token data :
  fernet.decrypt f token = Ok data ->
  exists signed,
    base64.urlsafe_b64decode token = Ok signed
    /\ hashlib.hmac_sha256 (fernet.signing_key f) (drop_last 32 signed)
       = take_last 32 signed.
Proof.
  unfold fernet.decrypt, fernet.get_unverified_token_data. intros H.
  destruct (base64.urlsafe_b64decode token) as [signed|e]; [|discriminate].
  exists signed. split; [reflexivity|].
  destruct signed as [|v rest]; [discriminate|].
  destruct (negb (Byte.eqb v x80)); [discriminate|].
  destruct (length (v :: rest) <? 9)%nat; [discriminate|].
  cbn [rbind] in H. unfold fernet.decrypt_data, fernet.verify_signature in H.
  destruct (bytes_eqb _ _) eqn:E; [|discriminate].
  now apply bytes_eqb_eq in E.
Qed.

(** ** The monad and the runs of the repository's functions *)

Lemma bind_ok {A B} (m : M A) (k : A -> M B) w a w' :
  m w = (Ok a, w') -> bind m k w = k a w'.
Proof. intros H. unfold bind. now rewrite H. Qed.

Lemma bind_lift {A B} (r : result A) (k : A -> M B) w :
  bind (lift r) k w = match r with Ok a => k a w | Raise e => (Raise e, w) end.
Proof. unfold bind, lift. destruct r; reflexivity. Qed.

Lemma load_users_eq w : auth.load_users w = (Ok (stored_users w), w).
Proof. unfold auth.load_users, stored_users. destruct (users_json w); reflexivity. Qed.

Lemma generate_hash_with_salt data salt w :
  hashing.generate_hash data (Some salt) w =
  (Ok (salt, hashlib.pbkdf2_block (biometric.tobytes data) salt 100000), w).
Proof.
  unfold hashing.generate_hash, hashlib.pbkdf2_hmac_sha256.
  change (100000 <? 1)%N with false. cbv iota.
  unfold bind, ret, lift. reflexivity.
Qed.

Lemma generate_hash_fresh_salt data w :
  let salt := map (entropy w) (seq 0 16) in
  hashing.generate_hash data None w =
  (Ok (salt, hashlib.pbkdf2_block (biometric.tobytes data) salt 100000),
   set_entropy (fun i => entropy w (16 + i)%nat) w).
Proof.
  unfold hashing.generate_hash, hashlib.pbkdf2_hmac_sha256.
  change (100000 <? 1)%N with false. cbv iota.
  unfold bind, ret, lift, urandom. reflexivity.
Qed.

Lemma authenticate_user_missing username w :
  stored_users w !! username = None ->
  auth.authenticate_user username w = (Ok tt, log (Print MsgUserNotFound) w).
Proof.
  intros H. unfold auth.authenticate_user, bind at 1.
  rewrite load_users_eq, H. reflexivity.
Qed.

Lemma authenticate_user_enrolled username w rec salt encrypted_hash key nonce :
  stored_users w !! username = Some rec ->
  decoded_record rec salt encrypted_hash key nonce ->
  auth.authenticate_user username w =
  match encryption.decrypt_data key nonce encrypted_hash with
  | Raise e => (Raise e, w)
  | Ok decrypted_hash =>
      if negb (bytes_eqb (fresh_digest w username salt) decrypted_hash)
      then (Ok tt, log (Print MsgBiometricFailed) w)
      else otp_stage (user_data.otp_secret rec) w
  end.
Proof.
  intros H (Hs & He & Hk & Hn). unfold auth.authenticate_user, bind at 1.
  rewrite load_users_eq, H.
  rewrite bind_lift, Hs, bind_lift, He, bind_lift, Hk, bind_lift, Hn.
  unfold bind at 1. unfold biometric.generate_mock_fingerprint.
  unfold bind at 1. rewrite generate_hash_with_salt.
  rewrite bind_lift. fold (fingerprint w username).
  destruct (encryption.decrypt_data key nonce encrypted_hash) as [d|e]; [|reflexivity].
  destruct (negb (bytes_eqb (fresh_digest w username salt) d)); reflexivity.
Qed.

Lemma otp_stage_eq secret w :
  otp_stage secret w =
  match stdin w with
  | [] => (Raise EOFError, log (Input PromptOtp) w)
  | line :: rest =>
      let w1 := log Now (set_stdin rest (log (Input PromptOtp) w)) in
      match pyotp.verify (pyotp.new secret) line (clock w) 0 with
      | Raise e => (Raise e, w1)
      | Ok ok =>
          if negb ok then (Ok tt, log (Print MsgOtpFailed) w1)
          else (Ok tt, log (Print MsgAuthSuccessful) w1)
      end
  end.
Proof.
  unfold otp_stage, bind at 1, input.
  destruct (stdin w) as [|line rest]; [reflexivity|].
  unfold totp.verify_otp, bind, now, lift. cbn [clock set_stdin log].
  destruct (pyotp.verify (pyotp.new secret) line (clock w) 0) as [[|]|e];
    reflexivity.
Qed.

(** C10.  [authenticate_user] never writes the user database: whatever the
    user name and whatever the outcome (user not found, biometric
    rejection, OTP rejection, success or an exception), the content of
    [users.json] after the call is the content before it. *)
Theorem authenticate_user_keeps_store username w :
  users_json (snd (auth.authenticate_user username w)) = users_json w.
Proof.
  destruct (stored_users w !! username) as [rec|] eqn:Hu.
  2: { now rewrite (authenticate_user_missing _ _ Hu). }
  unfold auth.authenticate_user, bind at 1. rewrite load_users_eq, Hu.
  rewrite bind_lift.
  destruct (base64.fromhex (user_data.salt rec)) as [salt|e]; [|reflexivity].
  rewrite bind_lift.
  destruct (base64.fromhex (user_data.encrypted_hash rec)) as [eh|e]; [|reflexivity].
  rewrite bind_lift.
  destruct (base64.fromhex (user_data.key rec)) as [key|e]; [|reflexivity].
  rewrite bind_lift.
  destruct (base64.fromhex (user_data.nonce rec)) as [nonce|e]; [|reflexivity].
  unfold bind at 1, biometric.generate_mock_fingerprint.
  unfold bind at 1. rewrite generate_hash_with_salt. rewrite bind_lift.
  destruct (encryption.decrypt_data key nonce eh) as [d|e]; [|reflexivity].
  destruct (negb (bytes_eqb _ d)); [reflexivity|].
  fold (otp_stage (user_data.otp_secret rec)). rewrite otp_stage_eq.
  destruct (stdin w) as [|line rest]; [reflexivity|].
  cbv zeta.
  destruct (pyotp.verify _ line (clock w) 0) as [[|]|e]; reflexivity.
Qed.

Lemma authenticate_user_undecodable username w rec :
  stored_users w !! username = Some rec ->
  (forall salt eh key nonce, ~ decoded_record rec salt eh key nonce) ->
  exists e, auth.authenticate_user username w = (Raise e, w).
Proof.
  intros Hu Hno.
  unfold auth.authenticate_user, bind at 1. rewrite load_users_eq, Hu.
  rewrite bind_lift.
  destruct (base64.fromhex (user_data.salt rec)) as [salt|e] eqn:Hs; [|eauto].
  rewrite bind_lift.
  destruct (base64.fromhex (user_data.encrypted_hash rec)) as [eh|e] eqn:He; [|eauto].
  rewrite bind_lift.
  destruct (base64.fromhex (user_data.key rec)) as [key|e] eqn:Hk; [|eauto].
  rewrite bind_lift.
  destruct (base64.fromhex (user_data.nonce rec)) as [nonce|e] eqn:Hn; [|eauto].
  exfalso. apply (Hno salt eh key nonce). repeat split; assumption.
Qed.

Lemma decoded_record_dec rec :
  (exists salt eh key nonce, decoded_record rec salt eh key nonce)
  \/ (forall salt eh key nonce, ~ decoded_record rec salt eh key nonce).
Proof.
  unfold decoded_record.
  destruct (base64.fromhex (user_data.salt rec)) as [salt|e] eqn:Hs;
    [|right; intros ? ? ? ? (H & _); discriminate].
  destruct (base64.fromhex (user_data.encrypted_hash rec)) as [eh|e] eqn:He;
    [|right; intros ? ? ? ? (_ & H & _); discriminate].
  destruct (base64.fromhex (user_data.key rec)) as [key|e] eqn:Hk;
    [|right; intros ? ? ? ? (_ & _ & H & _); discriminate].
  destruct (base64.fromhex (user_data.nonce rec)) as [nonce|e] eqn:Hn;
    [|right; intros ? ? ? ? (_ & _ & _ & H); discriminate].
  left. exists salt, eh, key, nonce. repeat split; reflexivity.
Qed.

Lemma decoded_record_functional rec s1 e1 k1 n1 s2 e2 k2 n2 :
  decoded_record rec s1 e1 k1 n1 -> decoded_record rec s2 e2 k2 n2 ->
  s1 = s2 /\ e1 = e2 /\ k1 = k2 /\ n1 = n2.
Proof.
  intros (A1 & B1 & C1 & D1) (A2 & B2 & C2 & D2).
  repeat split; congruence.
Qed.

Lemma Ok_inj {A} (a b : A) : Ok a = Ok b -> a = b.
Proof. intros H. now injection H. Qed.

Lemma trace_log e w : trace (log e w) = trace w ++ [e].
Proof. reflexivity. Qed.

(** C7.  Every run of [authenticate_user] goes through the stages in order
    and ends at the first one that fails: user lookup, biometric check, OTP
    check, success ([verify_run]).  The one-time code is requested
    ([Input PromptOtp]) and the clock read for its check ([Now]) only when
    the biometric gate has passed, and then once; otherwise the run ends
    before either happens and the terminal input is left untouched. *)
Theorem otp_consulted_only_after_biometric username w :
  let r := fst (auth.authenticate_user username w) in
  let w' := snd (auth.authenticate_user username w) in
  exists evs,
    trace w' = trace w ++ evs
    /\ verify_run w username r evs
    /\ (biometric_passes w username
        \/ (stdin w' = stdin w
            /\ ~ In (Input PromptOtp) evs /\ ~ In Now evs)).
Proof.
  cbv zeta.
  assert (Hno_otp : forall m, ~ In (Input PromptOtp) [Print m] /\ ~ In Now [Print m]).
  { intros m. split; intros [H|[]]; discriminate. }
  destruct (stored_users w !! username) as [rec|] eqn:Hu.
  2: { rewrite (authenticate_user_missing _ _ Hu).
       exists [Print MsgUserNotFound]. split; [reflexivity|].
       split; [now constructor|]. right. split; [reflexivity|apply Hno_otp]. }
  assert (Hsome : is_Some (stored_users w !! username)) by (rewrite Hu; eauto).
  destruct (decoded_record_dec rec) as [(salt & eh & key & nonce & Hd)|Hno].
  2: { destruct (authenticate_user_undecodable _ _ _ Hu Hno) as [e ->].
       exists []. split; [now rewrite app_nil_r|]. split.
       - apply RaisedAtBiometric; [exact Hsome|].
         intros (rec' & s & e' & k & n & H & Hd & _).
         assert (rec' = rec) by congruence. subst. now apply (Hno s e' k n).
       - right. split; [reflexivity|]. split; intros []. }
  rewrite (authenticate_user_enrolled _ _ _ _ _ _ _ Hu Hd).
  assert (Hpass : forall d, encryption.decrypt_data key nonce eh = d ->
            biometric_passes w username -> d = Ok (fresh_digest w username salt)).
  { intros d <- (rec' & s & e' & k & n & H & Hd' & Hdec).
    assert (rec' = rec) by congruence. subst rec'.
    destruct (decoded_record_functional _ _ _ _ _ _ _ _ _ Hd Hd')
      as (-> & -> & -> & ->). exact Hdec. }
  destruct (encryption.decrypt_data key nonce eh) as [d|e] eqn:Hdec.
  2: { exists []. split; [now rewrite app_nil_r|]. split.
       - apply RaisedAtBiometric; [exact Hsome|].
         intros Hp. specialize (Hpass _ eq_refl Hp). discriminate.
       - right. split; [reflexivity|]. split; intros []. }
  destruct (bytes_eqb (fresh_digest w username salt) d) eqn:Heq; cbn [negb].
  2: { exists [Print MsgBiometricFailed]. split; [reflexivity|]. split.
       - apply RejectedAtBiometric; [exact Hsome|].
         intros Hp. specialize (Hpass _ eq_refl Hp). apply Ok_inj in Hpass.
         rewrite Hpass, bytes_eqb_refl in Heq. discriminate.
       - right. split; [reflexivity|apply Hno_otp]. }
  apply bytes_eqb_eq in Heq. subst d.
  assert (Hp : biometric_passes w username).
  { exists rec, salt, eh, key, nonce. auto. }
  rewrite otp_stage_eq.
  destruct (stdin w) as [|line rest].
  { exists [Input PromptOtp]. split; [apply trace_log|].
    split; [now constructor|now left]. }
  cbv zeta.
  destruct (pyotp.verify _ line (clock w) 0) as [[|]|e]; cbn [negb fst snd].
  - exists [Input PromptOtp; Now; Print MsgAuthSuccessful].
    split; [cbn; now rewrite <- !app_assoc|]. split; [now constructor|now left].
  - exists [Input PromptOtp; Now; Print MsgOtpFailed].
    split; [cbn; now rewrite <- !app_assoc|]. split; [now constructor|now left].
  - exists [Input PromptOtp; Now].
    split; [cbn; now rewrite <- !app_assoc|]. split; [now constructor|now left].
Qed.

(** ** Sealing and opening *)

(** C9.  The result of [decrypt_data] does not depend on its [nonce]
    argument: for every key and ciphertext, any two nonces give the same
    outcome. *)
Theorem decrypt_data_ignores_nonce (key n1 n2 encrypted_data : bytes) :
  encryption.decrypt_data key n1 encrypted_data
  = encryption.decrypt_data key n2 encrypted_data.
Proof. reflexivity. Qed.

(** What [encrypt_data] does, step by step: the key from the first 32 random
    bytes, the nonce from the next 16, the IV from the 16 after those. *)
Lemma encrypt_data_eq data w :
  let r32 := map (entropy w) (seq 0 32) in
  let nonce := map (fun i => entropy w (32 + i)%nat) (seq 0 16) in
  let iv := map (fun i => entropy w (32 + (16 + i))%nat) (seq 0 16) in
  let f := {| fernet.signing_key := firstn 16 r32;
              fernet.encryption_key := skipn 16 r32 |} in
  exists w',
    same_setting w w'
    /\ encryption.encrypt_data data w
       = (match fernet.encrypt_from_parts f data (clock w) iv with
          | Ok token => Ok (fernet.generate_key r32, nonce, token)
          | Raise e => Raise e
          end, w').
Proof.
  intros r32 nonce iv f.
  assert (Hr : length r32 = 32%nat)
    by (unfold r32; now rewrite length_map, length_seq).
  unfold encryption.encrypt_data, bind at 1, urandom at 1. fold r32.
  rewrite bind_lift, (fernet_new_generate_key r32 Hr). fold f.
  unfold bind, urandom, now, lift, ret. cbn [entropy set_entropy log clock].
  fold iv. fold nonce.
  destruct (fernet.encrypt_from_parts f data (clock w) iv);
    eexists; (split; [|reflexivity]); repeat split; reflexivity.
Qed.

Lemma encrypt_from_parts_clock f data t iv token :
  fernet.encrypt_from_parts f data t iv = Ok token -> 0 <= t < 2 ^ 64.
Proof.
  unfold fernet.encrypt_from_parts. intros H.
  destruct (fernet.cbc_params _ _); [|discriminate]. cbn [rbind] in H.
  destruct (aes.blocks_of_bytes _); [|discriminate].
  unfold fernet.timestamp_bytes in H.
  destruct (0 <=? t) eqn:H1; [|discriminate].
  destruct (t <? 2 ^ 64) eqn:H2; [|discriminate].
  apply Z.leb_le in H1. apply Z.ltb_lt in H2. lia.
Qed.

Lemma encrypt_data_run data w :
  0 <= clock w < 2 ^ 64 ->
  exists key nonce token w',
    encryption.encrypt_data data w = (Ok (key, nonce, token), w')
    /\ encryption.decrypt_data key nonce token = Ok data
    /\ same_setting w w'.
Proof.
  intros Ht.
  destruct (encrypt_data_eq data w) as (w' & Hsame & E). cbv zeta in E.
  set (r32 := map (entropy w) (seq 0 32)) in *.
  set (iv := map (fun i => entropy w (32 + (16 + i))%nat) (seq 0 16)) in *.
  assert (Hr : length r32 = 32%nat)
    by (unfold r32; now rewrite length_map, length_seq).
  assert (Hiv : length iv = 16%nat)
    by (unfold iv; now rewrite length_map, length_seq).
  destruct (fernet_seal_open r32 iv data (clock w) Hr Hiv Ht)
    as (f & token & Hnew & Henc & Hdec).
  rewrite (fernet_new_generate_key r32 Hr) in Hnew. apply Ok_inj in Hnew.
  subst f. rewrite Henc in E.
  do 3 eexists. exists w'. split; [exact E|]. split; [apply Hdec|exact Hsame].
Qed.

(** C5.  [decrypt_data] is the inverse of [encrypt_data]: whenever
    [encrypt_data data] returns [(key, nonce, encrypted_data)],
    [decrypt_data key nonce encrypted_data] succeeds and returns exactly
    [data]; and [encrypt_data] does return whenever the clock fits the
    token's 8-byte timestamp. *)
Theorem encrypt_decrypt_roundtrip (data : bytes) (w : world) :
  (forall key nonce encrypted_data w',
      encryption.encrypt_data data w = (Ok (key, nonce, encrypted_data), w') ->
      encryption.decrypt_data key nonce encrypted_data = Ok data)
  /\ (0 <= clock w < 2 ^ 64 ->
      exists out w', encryption.encrypt_data data w = (Ok out, w')).
Proof.
  split.
  - intros key nonce ct w' H.
    assert (Ht : 0 <= clock w < 2 ^ 64).
    { destruct (encrypt_data_eq data w) as (w1 & _ & E). cbv zeta in E.
      rewrite E in H.
      destruct (fernet.encrypt_from_parts _ data (clock w) _) as [t|e] eqn:Henc;
        [|discriminate].
      exact (encrypt_from_parts_clock _ _ _ _ _ Henc). }
    destruct (encrypt_data_run data w Ht) as (k & n & t & w1 & E & Hdec & _).
    rewrite E in H. injection H as <- <- <- <-. exact Hdec.
  - intros Ht.
    destruct (encrypt_data_run data w Ht) as (k & n & t & w1 & E & _).
    eauto.
Qed.

Lemma encrypt_decrypt_roundtrip_witness :
  exists key nonce encrypted_data w',
    encryption.encrypt_data sample_digest (sample_world None [] 1700000000)
    = (Ok (key, nonce, encrypted_data), w')
    /\ encryption.decrypt_data key nonce encrypted_data = Ok sample_digest.
Proof.
  destruct (encrypt_decrypt_roundtrip sample_digest (sample_world None [] 1700000000))
    as [Hopen Hseal].
  destruct Hseal as ([[key nonce] ct] & w' & E); [cbn; lia|].
  exists key, nonce, ct, w'. split; [exact E|]. exact (Hopen _ _ _ _ E).
Defined.

(** ** Hashing *)

(** C8, as amended.  [generate_hash] has no failure mode: for every feature
    vector, the empty one included, and for every salt or none, it returns
    a salt and a digest. *)
Theorem generate_hash_never_fails (data : ndarray) (salt : option bytes)
  (w : world) :
  exists s h w', hashing.generate_hash data salt w = (Ok (s, h), w').
Proof.
  destruct salt as [s0|].
  - rewrite generate_hash_with_salt. eauto.
  - pose proof (generate_hash_fresh_salt data w) as E. cbv zeta in E.
    rewrite E. eauto.
Qed.

(** C8 fails as stated: the empty vector is hashed like any other. *)
Lemma generate_hash_accepts_empty_vector :
  hashing.generate_hash [] (Some sample_salt) (sample_world None [] 0)
  = (Ok (sample_salt, hashlib.pbkdf2_block [] sample_salt 100000),
     sample_world None [] 0).
Proof. apply generate_hash_with_salt. Qed.

(** ** Enrolment *)

Lemma register_user_taken username w rec :
  stored_users w !! username = Some rec ->
  auth.register_user username w = (Ok tt, log (Print MsgUserExists) w).
Proof.
  intros H. unfold auth.register_user, bind at 1.
  rewrite load_users_eq, H. reflexivity.
Qed.

(** C6.  For a user already in the database, [register_user] only reports
    "User already exists": it returns after that one message and the
    database is unchanged (no record written, none created). *)
Theorem register_user_existing username w rec :
  stored_users w !! username = Some rec ->
  auth.register_user username w = (Ok tt, log (Print MsgUserExists) w)
  /\ users_json (snd (auth.register_user username w)) = users_json w.
Proof.
  intros H. pose proof (register_user_taken _ _ _ H) as E.
  split; [exact E|]. rewrite E. reflexivity.
Qed.

Lemma register_user_existing_witness :
  stored_users enrolled_world !! "alice"%string = Some enrolled_record
  /\ auth.register_user "alice"%string enrolled_world
     = (Ok tt, log (Print MsgUserExists) enrolled_world)
  /\ users_json (snd (auth.register_user "alice"%string enrolled_world))
     = users_json enrolled_world.
Proof.
  split; [reflexivity|].
  apply (register_user_existing "alice"%string enrolled_world enrolled_record).
  reflexivity.
Defined.


(** ** Verification *)

(** C2, as amended.  For an enrolled user whose stored ciphertext does not
    open (tampered or corrupted record, wrong key), [authenticate_user]
    does not report a biometric rejection: the exception of [decrypt_data]
    leaves the call uncaught, nothing is printed and the world is as
    before.  "Biometric authentication failed!" is reported exactly when
    the ciphertext opens to a digest that differs from the fresh one. *)
Theorem decryption_failure_escapes username w rec salt encrypted_hash key nonce :
  stored_users w !! username = Some rec ->
  decoded_record rec salt encrypted_hash key nonce ->
  (forall e, encryption.decrypt_data key nonce encrypted_hash = Raise e ->
             auth.authenticate_user username w = (Raise e, w))
  /\ (forall d, encryption.decrypt_data key nonce encrypted_hash = Ok d ->
                d <> fresh_digest w username salt ->
                auth.authenticate_user username w
                = (Ok tt, log (Print MsgBiometricFailed) w)).
Proof.
  intros Hu Hd. rewrite (authenticate_user_enrolled _ _ _ _ _ _ _ Hu Hd).
  split.
  - intros e ->. reflexivity.
  - intros d -> Hne.
    destruct (bytes_eqb (fresh_digest w username salt) d) eqn:E; [|reflexivity].
    apply bytes_eqb_eq in E. congruence.
Qed.

Lemma tampered_record_decoded :
  decoded_record tampered_record sample_salt tampered_token
    (fst (fst sealed_sample)) (snd (fst sealed_sample)).
Proof. repeat split; vm_compute; reflexivity. Qed.

Lemma tampered_token_differs_in_one_bit :
  snd sealed_sample <> tampered_token
  /\ flip_bit_at 139 0 tampered_token = snd sealed_sample.
Proof. split; [vm_compute; discriminate | vm_compute; reflexivity]. Qed.

Lemma tampered_token_rejected :
  encryption.decrypt_data (fst (fst sealed_sample)) (snd (fst sealed_sample))
    tampered_token = Raise InvalidToken.
Proof. vm_compute. reflexivity. Qed.

Lemma decryption_failure_escapes_witness :
  stored_users tampered_world !! "alice"%string = Some tampered_record
  /\ decoded_record tampered_record sample_salt tampered_token
       (fst (fst sealed_sample)) (snd (fst sealed_sample))
  /\ encryption.decrypt_data (fst (fst sealed_sample))
       (snd (fst sealed_sample)) tampered_token = Raise InvalidToken
  /\ auth.authenticate_user "alice" tampered_world
     = (Raise InvalidToken, tampered_world).
Proof.
  assert (Hu : stored_users tampered_world !! "alice"%string
               = Some tampered_record) by reflexivity.
  assert (Hd : decoded_record tampered_record sample_salt tampered_token
                 (fst (fst sealed_sample)) (snd (fst sealed_sample)))
    by (repeat split; vm_compute; reflexivity).
  assert (Hr : encryption.decrypt_data (fst (fst sealed_sample))
                 (snd (fst sealed_sample)) tampered_token = Raise InvalidToken)
    by (vm_compute; reflexivity).
  split; [exact Hu|]. split; [exact Hd|]. split; [exact Hr|].
  exact (proj1 (decryption_failure_escapes "alice" tampered_world
                  tampered_record sample_salt tampered_token
                  (fst (fst sealed_sample)) (snd (fst sealed_sample))
                  Hu Hd) InvalidToken Hr).
Defined.

(** Tampering with the sample token: each of the sampled single-bit
    variants is refused with [InvalidToken]. *)
Lemma sealed_sample_flips_rejected : sampled_flips_rejected = true.
Proof. vm_compute. reflexivity. Qed.

Lemma sealed_sample_opens :
  encryption.decrypt_data (fst (fst sealed_sample)) (snd (fst sealed_sample))
    (snd sealed_sample) = Ok sample_digest.
Proof. vm_compute. reflexivity. Qed.

(** C2 fails as stated: the record of "alice" holds a sealed digest with
    one bit flipped, and her verification ends with [InvalidToken] raised
    instead of a biometric rejection. *)
Lemma tampered_record_escapes :
  auth.authenticate_user "alice" tampered_world = (Raise InvalidToken, tampered_world).
Proof.
  rewrite (authenticate_user_enrolled "alice" tampered_world tampered_record
             _ _ _ _ eq_refl tampered_record_decoded).
  rewrite tampered_token_rejected. reflexivity.
Qed.

(** ** One-time codes *)

Lemma generate_otp_eq secret w :
  fst (totp.generate_otp secret w)
  = pyotp.at_time (pyotp.new secret) (clock w) 0.
Proof.
  unfold totp.generate_otp, pyotp.at_time, bind, now, lift. cbn [fst clock log].
  now rewrite Z.add_0_r.
Qed.

Lemma verify_otp_eq secret code w :
  fst (totp.verify_otp secret code w)
  = rbind (pyotp.at_time (pyotp.new secret) (clock w) 0)
          (fun c => Ok (String.eqb code c)).
Proof. reflexivity. Qed.

(** C1, as amended.  For every secret and time at which a code is defined,
    [verify_otp] accepts the code of the current time step, and a code
    generated at any other time (the preceding and the following step
    included) is accepted exactly when it is equal to the code of the
    current step: there is no skew window. *)
Theorem verify_otp_accepts_exactly_current_code secret w code :
  fst (totp.generate_otp secret w) = Ok code ->
  fst (totp.verify_otp secret code w) = Ok true
  /\ (forall w' c,
        fst (totp.generate_otp secret w') = Ok c ->
        (fst (totp.verify_otp secret c w) = Ok true <-> c = code)).
Proof.
  rewrite generate_otp_eq. intros H. split.
  - rewrite verify_otp_eq, H. cbn [rbind]. now rewrite String.eqb_refl.
  - intros w' c _. rewrite verify_otp_eq, H. cbn [rbind]. split.
    + intros E. apply String.eqb_eq. now injection E.
    + intros ->. now rewrite String.eqb_refl.
Qed.

Lemma verify_otp_accepts_exactly_current_code_witness :
  fst (totp.generate_otp rfc_secret (sample_world None [] 59)) = Ok "287082"%string
  /\ fst (totp.verify_otp rfc_secret "287082" (sample_world None [] 59)) = Ok true
  /\ (forall w' c,
        fst (totp.generate_otp rfc_secret w') = Ok c ->
        (fst (totp.verify_otp rfc_secret c (sample_world None [] 59)) = Ok true
         <-> c = "287082"%string)).
Proof.
  split; [vm_compute; reflexivity|].
  apply (verify_otp_accepts_exactly_current_code rfc_secret
           (sample_world None [] 59) "287082").
  vm_compute. reflexivity.
Defined.

(** With a window of one step pyotp itself would accept the neighbouring
    codes; the source leaves the window at its default of zero. *)
Example pyotp_window_of_one_accepts_neighbours :
  pyotp.verify (pyotp.new rfc_secret) "755224" 59 1 = Ok true
  /\ pyotp.verify (pyotp.new rfc_secret) "359152" 59 1 = Ok true
  /\ pyotp.verify (pyotp.new rfc_secret) "969429" 59 1 = Ok false.
Proof. vm_compute. repeat split; reflexivity. Qed.

(** C1 fails as stated: with the secret of RFC 6238 at time 59, the codes of
    the preceding step (time 29) and of the following step (time 89) are
    both rejected. *)
Lemma verify_otp_rejects_adjacent_steps :
  fst (totp.generate_otp rfc_secret (sample_world None [] 29)) = Ok "755224"%string
  /\ fst (totp.generate_otp rfc_secret (sample_world None [] 89)) = Ok "359152"%string
  /\ fst (totp.verify_otp rfc_secret "755224" (sample_world None [] 59)) = Ok false
  /\ fst (totp.verify_otp rfc_secret "359152" (sample_world None [] 59)) = Ok false.
Proof. vm_compute. repeat split; reflexivity. Qed.

(** ** The sizes of the digest *)

Local Transparent hashlib.pbkdf2_block.

Lemma xor_bytes_length a b :
  length (hashlib.xor_bytes a b) = Nat.min (length a) (length b).
Proof. unfold hashlib.xor_bytes. now rewrite length_map, length_combine. Qed.

Lemma pbkdf2_step_invariant password n (tu : bytes * bytes) :
  length (fst tu) = 32%nat /\ length (snd tu) = 32%nat ->
  length (fst (N.iter n (hashlib.pbkdf2_step password) tu)) = 32%nat
  /\ length (snd (N.iter n (hashlib.pbkdf2_step password) tu)) = 32%nat.
Proof.
  apply (N.iter_invariant n (bytes * bytes) (hashlib.pbkdf2_step password)
           (fun tu => length (fst tu) = 32%nat /\ length (snd tu) = 32%nat)).
  intros [t u] [Ht Hu]. unfold hashlib.pbkdf2_step. cbn [fst snd] in *.
  rewrite xor_bytes_length, hmac_sha256_length, Ht. split; reflexivity.
Qed.

Lemma pbkdf2_block_length password salt iterations :
  length (hashlib.pbkdf2_block password salt iterations) = 32%nat.
Proof.
  unfold hashlib.pbkdf2_block. cbv zeta.
  apply pbkdf2_step_invariant. cbn [fst snd].
  split; apply hmac_sha256_length.
Qed.

Local Opaque hashlib.pbkdf2_block.

(** ** Secrets and codes

    The secrets of [pyotp.random_base32] decode, and a code is six decimal
    digits. *)









Lemma string_length_of_list (l : list ascii) :
  String.length (string_of_list_ascii l) = length l.
Proof. induction l; cbn; [reflexivity|]. now rewrite IHl. Qed.



Lemma generate_otp_total t input k :
  pyotp.byte_secret t = Ok k -> 0 <= input ->
  exists code, pyotp.generate_otp t input = Ok code.
Proof.
  intros Hk Hi. unfold pyotp.generate_otp.
  replace (input <? 0) with false by (symmetry; apply Z.ltb_ge; lia).
  rewrite Hk. cbn [rbind]. eauto.
Qed.

Lemma of_lu_bound d :
  (DecimalPos.Unsigned.of_lu d < 10 ^ N.of_nat (Decimal.nb_digits d))%N.
Proof.
  induction d; cbn [DecimalPos.Unsigned.of_lu Decimal.nb_digits];
    rewrite ?Nat2N.inj_succ, ?N.pow_succ_r'; cbn [N.of_nat]; lia.
Qed.

Lemma to_uint_digits (n : N) k :
  (10 ^ N.of_nat k <= n)%N -> (k < Decimal.nb_digits (N.to_uint n))%nat.
Proof.
  intros H.
  pose proof (of_lu_bound (Decimal.rev (N.to_uint n))) as B.
  rewrite <- DecimalPos.Unsigned.of_uint_alt in B.
  change (Pos.of_uint (N.to_uint n)) with (N.of_uint (N.to_uint n)) in B.
  rewrite DecimalN.Unsigned.of_to, DecimalFacts.nb_digits_rev in B.
  destruct (Nat.lt_ge_cases k (Decimal.nb_digits (N.to_uint n))) as [|Hge]; [assumption|].
  exfalso.
  assert (Hp : (10 ^ N.of_nat (Decimal.nb_digits (N.to_uint n)) <= 10 ^ N.of_nat k)%N)
    by (apply N.pow_le_mono_r; [discriminate|lia]).
  lia.
Qed.

Lemma string_of_uint_length d :
  String.length (NilEmpty.string_of_uint d) = Decimal.nb_digits d.
Proof. induction d; cbn; congruence. Qed.

Lemma string_of_uint_digits d :
  forallb is_digit (list_ascii_of_string (NilEmpty.string_of_uint d)) = true.
Proof. induction d; cbn; auto. Qed.

Lemma str_digits n :
  forallb is_digit (list_ascii_of_string (pyotp.str n)) = true.
Proof.
  unfold pyotp.str, NilZero.string_of_uint.
  destruct (N.to_uint (Z.to_N n)); try apply string_of_uint_digits. reflexivity.
Qed.

Lemma str_length n k :
  10 ^ Z.of_nat k <= n -> (k < String.length (pyotp.str n))%nat.
Proof.
  intros H. unfold pyotp.str, NilZero.string_of_uint.
  assert (Hk : (k < Decimal.nb_digits (N.to_uint (Z.to_N n)))%nat).
  { apply to_uint_digits. assert (0 < 10 ^ Z.of_nat k) by (apply Z.pow_pos_nonneg; lia).
    apply N2Z.inj_le. rewrite N2Z.inj_pow, nat_N_Z, Z2N.id by lia. exact H. }
  destruct (N.to_uint (Z.to_N n)) eqn:E; try (rewrite string_of_uint_length; exact Hk).
  cbn in Hk. lia.
Qed.

Lemma length_list_ascii s : length (list_ascii_of_string s) = String.length s.
Proof. induction s; cbn; congruence. Qed.

Lemma str_suffix_digits k s :
  (k <= String.length s)%nat ->
  forallb is_digit (list_ascii_of_string s) = true ->
  String.length (pyotp.str_suffix k s) = k
  /\ forallb is_digit (list_ascii_of_string (pyotp.str_suffix k s)) = true.
Proof.
  intros Hk Hd. unfold pyotp.str_suffix.
  rewrite string_length_of_list, list_ascii_of_string_of_list_ascii.
  unfold take_last. split.
  - rewrite length_skipn, length_list_ascii. lia.
  - apply forallb_forall. intros c Hc. rewrite forallb_forall in Hd. apply Hd.
    rewrite <- (firstn_skipn (length (list_ascii_of_string s) - k)).
    apply in_or_app. right. exact Hc.
Qed.

Lemma generate_otp_six_digits secret input code :
  pyotp.generate_otp (pyotp.new secret) input = Ok code ->
  String.length code = 6%nat
  /\ forallb is_digit (list_ascii_of_string code) = true.
Proof.
  unfold pyotp.generate_otp. destruct (input <? 0); [discriminate|].
  destruct (pyotp.byte_secret _) as [k|]; [|discriminate]. cbn [rbind].
  intros H. apply Ok_inj in H. subst code. cbn [pyotp.digits pyotp.new].
  change (Z.to_nat 6) with 6%nat.
  apply str_suffix_digits; [|apply str_digits].
  apply Nat.lt_le_incl, str_length.
  match goal with |- _ <= _ + ?c mod _ => pose proof (Z.mod_pos_bound c (10 ^ 6) eq_refl) end.
  change (10 ^ Z.of_nat 6) with 1000000. lia.
Qed.

Lemma current_code secret k t :
  pyotp.byte_secret (pyotp.new secret) = Ok k -> 0 <= t ->
  exists code,
    pyotp.at_time (pyotp.new secret) t 0 = Ok code /\ six_digits code.
Proof.
  intros Hk Ht.
  assert (Hq : 0 <= pyotp.timecode (pyotp.new secret) t + 0).
  { unfold pyotp.timecode. cbn [pyotp.interval pyotp.new].
    rewrite Z.add_0_r. apply Z.quot_pos; lia. }
  destruct (generate_otp_total _ _ _ Hk Hq) as [code E].
  exists code. split; [exact E|exact (generate_otp_six_digits _ _ _ E)].
Qed.



(** X2.  For a secret that decodes from Base32 and a clock that is not
    negative, [generate_otp] returns, reads the clock once, and its code is
    a string of exactly six decimal digits (leading zeros kept). *)
Theorem generate_otp_six_decimal_digits secret w k :
  pyotp.byte_secret (pyotp.new secret) = Ok k ->
  0 <= clock w ->
  exists code,
    totp.generate_otp secret w = (Ok code, log Now w) /\ six_digits code.
Proof.
  intros Hk Ht.
  destruct (current_code secret k (clock w) Hk Ht) as (code & E & H6).
  exists code. split; [|exact H6].
  unfold pyotp.at_time in E.
  unfold totp.generate_otp, bind, now, lift. cbn [clock log].
  rewrite Z.add_0_r in E. now rewrite E.
Qed.

Lemma generate_otp_six_decimal_digits_witness :
  pyotp.byte_secret (pyotp.new rfc_secret)
  = Ok (bytes_of_string "12345678901234567890")
  /\ 0 <= clock (sample_world None [] 59)
  /\ exists code,
       totp.generate_otp rfc_secret (sample_world None [] 59)
       = (Ok code, log Now (sample_world None [] 59))
       /\ six_digits code.
Proof.
  split; [vm_compute; reflexivity|]. split; [cbn; lia|].
  apply (generate_otp_six_decimal_digits rfc_secret (sample_world None [] 59)
           (bytes_of_string "12345678901234567890")).
  - vm_compute. reflexivity.
  - cbn. lia.
Defined.



(** X4.  A code is good for the whole of its 30-second step: generated at
    one moment, it is accepted by [verify_otp] at every moment of the same
    step. *)
Theorem verify_otp_same_step secret w w' code :
  0 <= clock w -> 0 <= clock w' ->
  clock w / 30 = clock w' / 30 ->
  fst (totp.generate_otp secret w) = Ok code ->
  fst (totp.verify_otp secret code w') = Ok true.
Proof.
  intros H H' Hstep. rewrite generate_otp_eq, verify_otp_eq.
  unfold pyotp.at_time, pyotp.timecode. cbn [pyotp.interval pyotp.new].
  rewrite !Z.quot_div_nonneg by lia. rewrite Hstep. intros ->.
  cbn [rbind]. now rewrite String.eqb_refl.
Qed.

Lemma verify_otp_same_step_witness :
  0 <= clock (sample_world None [] 31)
  /\ 0 <= clock (sample_world None [] 59)
  /\ clock (sample_world None [] 31) / 30 = clock (sample_world None [] 59) / 30
  /\ fst (totp.generate_otp rfc_secret (sample_world None [] 31))
     = Ok "287082"%string
  /\ fst (totp.verify_otp rfc_secret "287082" (sample_world None [] 59))
     = Ok true.
Proof.
  split; [cbn; lia|]. split; [cbn; lia|]. split; [reflexivity|].
  split; [vm_compute; reflexivity|].
  apply (verify_otp_same_step rfc_secret (sample_world None [] 31)
           (sample_world None [] 59) "287082").
  - cbn. lia.
  - cbn. lia.
  - reflexivity.
  - vm_compute. reflexivity.
Defined.

(** ** Hashing and sealing, step by step *)

Lemma drawn_length w off n : length (drawn w off n) = n.
Proof. unfold drawn. now rewrite length_map, length_seq. Qed.

(** X5.  [generate_hash] returns a digest of 32 bytes.  With a salt given
    it returns that salt and touches nothing; without one the salt is the
    next 16 bytes of the random source, and nothing else is consumed,
    printed or written. *)
Theorem generate_hash_salt_and_digest_sizes data salt w :
  exists s h w',
    hashing.generate_hash data salt w = (Ok (s, h), w')
    /\ length h = 32%nat
    /\ users_json w' = users_json w
    /\ match salt with
       | Some s0 => s = s0 /\ ran 0 0 [] w w'
       | None => s = drawn w 0 16 /\ length s = 16%nat /\ ran 16 0 [] w w'
       end.
Proof.
  destruct salt as [s0|].
  - do 3 eexists. split; [apply generate_hash_with_salt|].
    split; [apply pbkdf2_block_length|]. split; [reflexivity|].
    split; [reflexivity|]. repeat split. cbn. now rewrite app_nil_r.
  - pose proof (generate_hash_fresh_salt data w) as E. cbv zeta in E.
    do 3 eexists. split; [exact E|].
    split; [apply pbkdf2_block_length|]. split; [reflexivity|].
    split; [reflexivity|]. split; [now rewrite length_map, length_seq|].
    repeat split. cbn. now rewrite app_nil_r.
Qed.

(** X6.  [verify_hash] agrees with [generate_hash]: for the salt that
    [generate_hash] returned for the same data, it answers [True] exactly
    for the digest [generate_hash] returned, and leaves the world as it
    is. *)
Theorem verify_hash_accepts_exactly_generated data salt0 w :
  exists salt h w1,
    hashing.generate_hash data salt0 w = (Ok (salt, h), w1)
    /\ forall stored w2,
         hashing.verify_hash data salt stored w2
         = (Ok (bytes_eqb h stored), w2)
         /\ (bytes_eqb h stored = true <-> stored = h).
Proof.
  assert (V : forall salt stored w2,
    hashing.verify_hash data salt stored w2
    = (Ok (bytes_eqb (hashlib.pbkdf2_block (biometric.tobytes data) salt 100000)
             stored), w2)).
  { intros salt stored w2. unfold hashing.verify_hash.
    now rewrite (bind_ok _ _ _ _ _ (generate_hash_with_salt data salt w2)). }
  destruct salt0 as [s0|].
  - do 3 eexists. split; [apply generate_hash_with_salt|].
    intros stored w2. split; [apply V|].
    rewrite bytes_eqb_eq. split; congruence.
  - pose proof (generate_hash_fresh_salt data w) as E. cbv zeta in E.
    do 3 eexists. split; [exact E|].
    intros stored w2. split; [apply V|].
    rewrite bytes_eqb_eq. split; congruence.
Qed.

Lemma encrypt_data_steps data w :
  let r32 := drawn w 0 32 in
  let f := {| fernet.signing_key := firstn 16 r32;
              fernet.encryption_key := skipn 16 r32 |} in
  encryption.encrypt_data data w
  = (match fernet.encrypt_from_parts f data (clock w) (drawn w 48 16) with
     | Ok token => Ok (fernet.generate_key r32, drawn w 32 16, token)
     | Raise e => Raise e
     end, set_entropy (fun i => entropy w (64 + i)%nat) (log Now w)).
Proof.
  intros r32 f.
  assert (Hr : length r32 = 32%nat) by apply drawn_length.
  unfold encryption.encrypt_data, bind at 1, urandom at 1.
  change (map (entropy w) (seq 0 32)) with r32.
  rewrite bind_lift, (fernet_new_generate_key r32 Hr). fold f.
  unfold bind, urandom, now, lift, ret. cbn [entropy set_entropy log clock].
  change (map (fun i => entropy w (32 + (16 + i))%nat) (seq 0 16))
    with (drawn w 48 16).
  change (map (fun i => entropy w (32 + i)%nat) (seq 0 16))
    with (drawn w 32 16).
  destruct (fernet.encrypt_from_parts f data (clock w) (drawn w 48 16));
    reflexivity.
Qed.

Lemma encrypt_from_parts_overflow f data t iv :
  length (fernet.encryption_key f) = 16%nat -> length iv = 16%nat ->
  ~ 0 <= t < 2 ^ 64 ->
  fernet.encrypt_from_parts f data t iv = Raise OverflowError.
Proof.
  intros Hk Hiv Ht.
  destruct (cbc_params_ok _ _ Hk Hiv) as (k & v & Hkv & _ & _).
  destruct (pkcs7_pad_length data) as [n Hn].
  destruct (blocks_of_bytes_total n _ Hn) as [ps Hps].
  unfold fernet.encrypt_from_parts.
  rewrite Hkv. cbn [rbind fst snd]. rewrite Hps.
  unfold fernet.timestamp_bytes.
  destruct (0 <=? t) eqn:H1; [|reflexivity].
  destruct (t <? 2 ^ 64) eqn:H2; [|reflexivity].
  apply Z.leb_le in H1. apply Z.ltb_lt in H2. lia.
Qed.

(** X7.  [encrypt_data] draws 64 bytes from the random source and reads
    the clock once, whatever the outcome: the key comes from the first 32
    bytes, the nonce is the next 16 (the last 16 are the IV of the token).
    It fails only with [OverflowError], and exactly when the clock does not
    fit the 8-byte timestamp of a token. *)
Theorem encrypt_data_draws data w :
  exists r w',
    encryption.encrypt_data data w = (r, w')
    /\ ran 64 0 [Now] w w'
    /\ users_json w' = users_json w
    /\ match r with
       | Ok (key, nonce, _) =>
           0 <= clock w < 2 ^ 64
           /\ key = fernet.generate_key (drawn w 0 32)
           /\ nonce = drawn w 32 16
       | Raise e => e = OverflowError /\ ~ 0 <= clock w < 2 ^ 64
       end.
Proof.
  pose proof (encrypt_data_steps data w) as E. cbv zeta in E.
  remember {| fernet.signing_key := firstn 16 (drawn w 0 32);
              fernet.encryption_key := skipn 16 (drawn w 0 32) |} as f eqn:Hf.
  assert (Hk : length (fernet.encryption_key f) = 16%nat).
  { subst f. cbn [fernet.encryption_key]. rewrite length_skipn, drawn_length. lia. }
  do 2 eexists. split; [exact E|]. split; [repeat split|].
  split; [reflexivity|].
  destruct (fernet.encrypt_from_parts f data (clock w) (drawn w 48 16))
    as [token|e] eqn:Et.
  - split; [exact (encrypt_from_parts_clock _ _ _ _ _ Et)|]. split; reflexivity.
  - destruct (Z_le_dec 0 (clock w)) as [H0|H0];
      [destruct (Z_lt_dec (clock w) (2 ^ 64)) as [H1|H1]|].
    + destruct (fernet_decrypt_encrypt f data (clock w) (drawn w 48 16) Hk
                  (drawn_length _ _ _) (conj H0 H1)) as (token & Hc & _).
      congruence.
    + rewrite (encrypt_from_parts_overflow f data (clock w) (drawn w 48 16) Hk
                 (drawn_length _ _ _)) in Et by lia.
      injection Et as <-. split; [reflexivity|lia].
    + rewrite (encrypt_from_parts_overflow f data (clock w) (drawn w 48 16) Hk
                 (drawn_length _ _ _)) in Et by lia.
      injection Et as <-. split; [reflexivity|lia].
Qed.

(** ** What can be raised *)

Lemma consb_raises b r e : base64.consb b r = Raise e -> r = Raise e.
Proof. destruct r; [discriminate|]. cbn. congruence. Qed.

Lemma fromhex_raises_pair s :
  (forall e, base64.fromhex s = Raise e -> e = ValueError)
  /\ (forall c e, base64.fromhex (String c s) = Raise e -> e = ValueError).
Proof.
  induction s as [|d s [IH1 IH2]].
  - split; [discriminate|]. intros c e. cbn.
    destruct (base64.is_space c); [discriminate|].
    destruct (base64.hex_value c); congruence.
  - split; [exact (IH2 d)|]. intros c e.
    cbn [base64.fromhex].
    destruct (base64.is_space c); [apply (IH2 d)|].
    destruct (base64.hex_value c); [|congruence].
    destruct (base64.hex_value d); [|congruence].
    intros H. apply consb_raises in H. now apply IH1.
Qed.

Lemma fromhex_raises s e : base64.fromhex s = Raise e -> e = ValueError.
Proof. apply fromhex_raises_pair. Qed.

Lemma b32_acc_raises q : forall acc e,
  base64.b32_acc q acc = Raise e -> e = BinasciiError.
Proof.
  induction q as [|c q IH]; intros acc e; cbn; [discriminate|].
  destruct (base64.b32_value c); [apply IH|congruence].
Qed.

Lemma b32_quanta_raises qs : forall acc e,
  base64.b32_quanta qs acc = Raise e -> e = BinasciiError.
Proof.
  induction qs as [|q qs IH]; intros acc e; cbn; [discriminate|].
  destruct (base64.b32_acc q 0) as [a|e'] eqn:Ea; cbn [rbind].
  - destruct (base64.b32_quanta qs a) as [r|e''] eqn:Er; cbn [rbind];
      [discriminate|]. intros H. injection H as <-. exact (IH _ _ Er).
  - intros H. injection H as <-. exact (b32_acc_raises _ _ _ Ea).
Qed.

Lemma b32decode_raises s e :
  base64.b32decode s = Raise e -> e = BinasciiError.
Proof.
  unfold base64.b32decode.
  destruct (negb (length s mod 8 =? 0)%nat); [congruence|]. cbv zeta.
  destruct (base64.b32_quanta _ 0) as [[decoded acc]|e'] eqn:Eq; cbn [rbind].
  - destruct (negb (existsb _ _)); [congruence|].
    destruct (_ - _)%nat; [discriminate|]. destruct decoded; discriminate.
  - intros H. injection H as <-. exact (b32_quanta_raises _ _ _ Eq).
Qed.

Lemma byte_secret_raises t e :
  pyotp.byte_secret t = Raise e -> e = ValueError \/ e = BinasciiError.
Proof.
  unfold pyotp.byte_secret. cbv zeta.
  destruct (negb (forallb _ _)); [left; congruence|].
  intros H. right. exact (b32decode_raises _ _ H).
Qed.

Lemma generate_otp_raises t input e :
  pyotp.generate_otp t input = Raise e -> e = ValueError \/ e = BinasciiError.
Proof.
  unfold pyotp.generate_otp.
  destruct (input <? 0); [left; congruence|].
  destruct (pyotp.byte_secret t) as [k|e'] eqn:Ek; cbn [rbind]; [discriminate|].
  intros H. injection H as <-. exact (byte_secret_raises _ _ Ek).
Qed.

Lemma verify_raises t otp for_time e :
  pyotp.verify t otp for_time 0 = Raise e ->
  e = ValueError \/ e = BinasciiError.
Proof.
  unfold pyotp.verify. cbn [Z.eqb negb]. unfold pyotp.at_time.
  destruct (pyotp.generate_otp t _) as [c|e'] eqn:Ec; cbn [rbind];
    [discriminate|].
  intros H. injection H as <-. exact (generate_otp_raises _ _ _ Ec).
Qed.

Lemma fernet_new_raises key e : fernet.new key = Raise e -> e = ValueError.
Proof.
  unfold fernet.new. destruct (base64.urlsafe_b64decode key); [|congruence].
  destruct (negb _); [congruence|discriminate].
Qed.

Lemma fernet_decrypt_raises f token e :
  fernet.decrypt f token = Raise e -> e = InvalidToken \/ e = ValueError.
Proof.
  unfold fernet.decrypt, fernet.get_unverified_token_data.
  destruct (base64.urlsafe_b64decode token) as [data|e'];
    [|cbn; left; congruence].
  destruct data as [|v rest]; [cbn; left; congruence|].
  destruct (negb (Byte.eqb v x80)); [cbn; left; congruence|].
  destruct (length (v :: rest) <? 9)%nat; [cbn; left; congruence|].
  cbn [rbind]. unfold fernet.decrypt_data, fernet.verify_signature.
  destruct (bytes_eqb _ _); [|cbn; left; congruence]. cbn [rbind].
  unfold fernet.cbc_params.
  destruct (aes.block_of_bytes (fernet.encryption_key f));
    [|cbn; right; congruence].
  destruct (aes.block_of_bytes _); [|cbn; right; congruence].
  cbn [rbind fst snd].
  destruct (aes.blocks_of_bytes _); [|left; congruence].
  destruct (aes.pkcs7_unpad _); [discriminate|left; congruence].
Qed.

Lemma decrypt_data_raises key nonce encrypted_data e :
  encryption.decrypt_data key nonce encrypted_data = Raise e ->
  e = InvalidToken \/ e = ValueError.
Proof.
  unfold encryption.decrypt_data.
  destruct (fernet.new key) as [f|e'] eqn:Ef; cbn [rbind].
  - apply fernet_decrypt_raises.
  - intros H. injection H as <-. right. exact (fernet_new_raises _ _ Ef).
Qed.

(** X8.  The errors of [decrypt_data]: it raises nothing but [ValueError]
    and [InvalidToken], and [InvalidToken] only under a well-formed key
    (a malformed key is a [ValueError] whatever the token). *)
Theorem decrypt_data_raises_only key nonce encrypted_data e :
  encryption.decrypt_data key nonce encrypted_data = Raise e ->
  e = ValueError
  \/ (e = InvalidToken /\ exists f, fernet.new key = Ok f).
Proof.
  unfold encryption.decrypt_data.
  destruct (fernet.new key) as [f|e'] eqn:Ef; cbn [rbind].
  - intros H. destruct (fernet_decrypt_raises f _ e H) as [->| ->];
      [right; eauto|now left].
  - intros H. injection H as <-. left. exact (fernet_new_raises _ _ Ef).
Qed.

Lemma decrypt_data_raises_only_witness :
  encryption.decrypt_data (fst (fst sealed_sample)) (snd (fst sealed_sample))
    tampered_token = Raise InvalidToken
  /\ (InvalidToken = ValueError
      \/ (InvalidToken = InvalidToken
          /\ exists f, fernet.new (fst (fst sealed_sample)) = Ok f)).
Proof.
  split; [exact tampered_token_rejected|].
  apply (decrypt_data_raises_only (fst (fst sealed_sample))
           (snd (fst sealed_sample)) tampered_token InvalidToken).
  exact tampered_token_rejected.
Defined.

(** ** Runs of enrolment *)

(** The world [register_user] leaves for a new user whose digest was
    sealed into [token]. *)
Lemma register_user_new username w :
  stored_users w !! username = None ->
  exists r : result bytes,
    (0 <= clock w < 2 ^ 64 ->
     exists token,
       r = Ok token
       /\ forall nonce,
            encryption.decrypt_data (fernet.generate_key (drawn w 16 32))
              nonce token
            = Ok (fresh_digest w username (drawn w 0 16)))
    /\ (~ 0 <= clock w < 2 ^ 64 -> r = Raise OverflowError)
    /\ auth.register_user username w
       = match r with
         | Raise e =>
             (Raise e,
              set_entropy (fun i => entropy w (80 + i)%nat) (log Now w))
         | Ok token =>
             (Ok tt,
              log (Print (MsgEnterManually (pyotp.random_base32 (drawn w 80 32))))
                (log (Print (MsgQrAscii username
                               (pyotp.random_base32 (drawn w 80 32))))
                   (log (Print MsgScanQr)
                      (log (Print (MsgRegistered username))
                         (set_users_json
                            (Some (<[username := new_record w token]>
                                     (stored_users w)))
                            (set_entropy (fun i => entropy w (112 + i)%nat)
                               (log Now w)))))))
         end.
Proof.
  intros Hu.
  pose proof (generate_hash_fresh_salt (fingerprint w username) w) as Eh.
  cbv zeta in Eh.
  change (map (entropy w) (seq 0 16)) with (drawn w 0 16) in Eh.
  remember (hashlib.pbkdf2_block (biometric.tobytes (fingerprint w username))
              (drawn w 0 16) 100000) as digest eqn:Hdig.
  remember (set_entropy (fun i => entropy w (16 + i)%nat) w) as w1 eqn:Hw1.
  pose proof (encrypt_data_steps digest w1) as Ee. cbv zeta in Ee.
  assert (E1 : drawn w1 0 32 = drawn w 16 32) by (subst w1; reflexivity).
  assert (E2 : drawn w1 48 16 = drawn w 64 16) by (subst w1; reflexivity).
  assert (E3 : drawn w1 32 16 = drawn w 48 16) by (subst w1; reflexivity).
  assert (E4 : clock w1 = clock w) by (subst w1; reflexivity).
  rewrite E1, E2, E3, E4 in Ee.
  remember {| fernet.signing_key := firstn 16 (drawn w 16 32);
              fernet.encryption_key := skipn 16 (drawn w 16 32) |} as f eqn:Hf.
  assert (Hk : length (fernet.encryption_key f) = 16%nat).
  { subst f. cbn [fernet.encryption_key]. rewrite length_skipn, drawn_length. lia. }
  exists (fernet.encrypt_from_parts f digest (clock w) (drawn w 64 16)).
  split; [|split].
  - intros Ht.
    destruct (fernet_seal_open (drawn w 16 32) (drawn w 64 16) digest (clock w)
                (drawn_length _ _ _) (drawn_length _ _ _) Ht)
      as (f' & token & Hnew & Henc & Hdec).
    rewrite (fernet_new_generate_key _ (drawn_length w 16 32)) in Hnew.
    apply Ok_inj in Hnew. rewrite <- Hf in Hnew. subst f'.
    exists token. split; [exact Henc|exact Hdec].
  - intros Ht. apply encrypt_from_parts_overflow;
      [exact Hk|apply drawn_length|exact Ht].
  - unfold auth.register_user, bind at 1. rewrite load_users_eq, Hu.
    unfold bind at 1, biometric.generate_mock_fingerprint.
    change (map (np_random w (str_hash w username mod 2 ^ 32)) (seq 0 128))
      with (fingerprint w username).
    rewrite (bind_ok _ _ _ _ _ Eh).
    unfold bind at 1. rewrite Ee.
    destruct (fernet.encrypt_from_parts f digest (clock w) (drawn w 64 16))
      as [token|e]; subst w1; reflexivity.
Qed.

Lemma register_user_ok username w :
  stored_users w !! username = None ->
  0 <= clock w < 2 ^ 64 ->
  exists token,
    auth.register_user username w = (Ok tt, registered username w token)
    /\ forall nonce,
         encryption.decrypt_data (fernet.generate_key (drawn w 16 32))
           nonce token
         = Ok (fresh_digest w username (drawn w 0 16)).
Proof.
  intros Hu Ht.
  destruct (register_user_new username w Hu) as (r & Hok & _ & E).
  destruct (Hok Ht) as (token & -> & Hdec).
  exists token. split; [exact E|exact Hdec].
Qed.

Lemma register_user_overflow username w :
  stored_users w !! username = None ->
  ~ 0 <= clock w < 2 ^ 64 ->
  auth.register_user username w
  = (Raise OverflowError,
     set_entropy (fun i => entropy w (80 + i)%nat) (log Now w)).
Proof.
  intros Hu Ht.
  destruct (register_user_new username w Hu) as (r & _ & Hbad & E).
  rewrite (Hbad Ht) in E. exact E.
Qed.


Lemma registered_lookup username w token :
  stored_users (registered username w token) !! username
  = Some (new_record w token).
Proof. apply lookup_insert_eq. Qed.






(** X11.  When the clock does not fit a token's timestamp, enrolment of a
    new user fails with [OverflowError] before anything is stored or
    printed: the database is unchanged and the trace has gained the
    reading of the clock only. *)
Theorem register_user_overflow_keeps_store username w :
  stored_users w !! username = None ->
  ~ 0 <= clock w < 2 ^ 64 ->
  fst (auth.register_user username w) = Raise OverflowError
  /\ users_json (snd (auth.register_user username w)) = users_json w
  /\ trace (snd (auth.register_user username w)) = trace w ++ [Now].
Proof.
  intros Hu Ht. rewrite (register_user_overflow username w Hu Ht).
  repeat split.
Qed.

Lemma register_user_overflow_keeps_store_witness :
  stored_users overflow_world !! "alice"%string = None
  /\ ~ 0 <= clock overflow_world < 2 ^ 64
  /\ fst (auth.register_user "alice" overflow_world) = Raise OverflowError
  /\ users_json (snd (auth.register_user "alice" overflow_world))
     = users_json overflow_world
  /\ trace (snd (auth.register_user "alice" overflow_world))
     = trace overflow_world ++ [Now].
Proof.
  split; [reflexivity|]. split; [cbn; lia|].
  apply (register_user_overflow_keeps_store "alice" overflow_world);
    [reflexivity|cbn; lia].
Defined.



(** X14.  A second enrolment under the same name right after the first is
    refused with "User already exists" and changes nothing. *)
Theorem register_user_second_time username w :
  stored_users w !! username = None ->
  0 <= clock w < 2 ^ 64 ->
  auth.register_user username (snd (auth.register_user username w))
  = (Ok tt, log (Print MsgUserExists) (snd (auth.register_user username w))).
Proof.
  intros Hu Ht.
  destruct (register_user_ok username w Hu Ht) as (token & E & _).
  rewrite E. cbn [snd].
  exact (register_user_taken username _ _ (registered_lookup username w token)).
Qed.

Lemma register_user_second_time_witness :
  stored_users new_user_world !! "alice"%string = None
  /\ 0 <= clock new_user_world < 2 ^ 64
  /\ auth.register_user "alice" (snd (auth.register_user "alice" new_user_world))
     = (Ok tt,
        log (Print MsgUserExists)
          (snd (auth.register_user "alice" new_user_world))).
Proof.
  split; [reflexivity|]. split; [cbn; lia|].
  apply (register_user_second_time "alice" new_user_world);
    [reflexivity|cbn; lia].
Defined.

(** ** Runs of verification *)







(** X17.  A record with a field that is not hexadecimal makes
    [authenticate_user] fail with [ValueError] before anything is printed
    or asked: the world is as it was. *)
Theorem authenticate_user_corrupted_record username w rec :
  stored_users w !! username = Some rec ->
  (forall salt eh key nonce, ~ decoded_record rec salt eh key nonce) ->
  auth.authenticate_user username w = (Raise ValueError, w).
Proof.
  intros Hu Hno.
  unfold auth.authenticate_user, bind at 1. rewrite load_users_eq, Hu.
  rewrite bind_lift.
  destruct (base64.fromhex (user_data.salt rec)) as [salt|e] eqn:Hs;
    [|now rewrite (fromhex_raises _ _ Hs)].
  rewrite bind_lift.
  destruct (base64.fromhex (user_data.encrypted_hash rec)) as [eh|e] eqn:He;
    [|now rewrite (fromhex_raises _ _ He)].
  rewrite bind_lift.
  destruct (base64.fromhex (user_data.key rec)) as [key|e] eqn:Hk;
    [|now rewrite (fromhex_raises _ _ Hk)].
  rewrite bind_lift.
  destruct (base64.fromhex (user_data.nonce rec)) as [nonce|e] eqn:Hn;
    [|now rewrite (fromhex_raises _ _ Hn)].
  exfalso. apply (Hno salt eh key nonce). repeat split; assumption.
Qed.

Lemma authenticate_user_corrupted_record_witness :
  stored_users corrupted_world !! "alice"%string = Some corrupted_record
  /\ (forall salt eh key nonce, ~ decoded_record corrupted_record salt eh key nonce)
  /\ auth.authenticate_user "alice" corrupted_world
     = (Raise ValueError, corrupted_world).
Proof.
  assert (Hno : forall salt eh key nonce,
            ~ decoded_record corrupted_record salt eh key nonce)
    by (intros salt eh key nonce [H _]; discriminate H).
  split; [reflexivity|]. split; [exact Hno|].
  apply (authenticate_user_corrupted_record "alice" corrupted_world
           corrupted_record); [reflexivity|exact Hno].
Defined.

Lemma otp_stage_frame secret w :
  exists evs,
    ran 0 (inputs evs) evs w (snd (otp_stage secret w))
    /\ (inputs evs <= 1)%nat
    /\ forall e, fst (otp_stage secret w) = Raise e ->
         e = EOFError \/ e = ValueError \/ e = BinasciiError.
Proof.
  rewrite otp_stage_eq. unfold ran.
  destruct (stdin w) as [|line rest] eqn:Hin.
  - exists [Input PromptOtp]. cbn [fst snd]. split; [|split].
    + repeat split. cbn. now rewrite Hin.
    + cbn. lia.
    + intros e H. left. congruence.
  - cbv zeta.
    destruct (pyotp.verify _ line (clock w) 0) as [[|]|e'] eqn:Ev;
      cbn [negb fst snd].
    + exists [Input PromptOtp; Now; Print MsgAuthSuccessful].
      split; [|split; [cbn; lia|discriminate]].
      repeat split; cbn; rewrite <- ?app_assoc; reflexivity.
    + exists [Input PromptOtp; Now; Print MsgOtpFailed].
      split; [|split; [cbn; lia|discriminate]].
      repeat split; cbn; rewrite <- ?app_assoc; reflexivity.
    + exists [Input PromptOtp; Now].
      split; [|split; [cbn; lia|]].
      * repeat split; cbn; rewrite <- ?app_assoc; reflexivity.
      * intros e H. injection H as <-. right. exact (verify_raises _ _ _ _ Ev).
Qed.

Lemma ran_nothing w : ran 0 (inputs []) [] w w.
Proof. repeat split. cbn. now rewrite app_nil_r. Qed.

Lemma authenticate_user_stages username w :
  exists evs,
    ran 0 (inputs evs) evs w (snd (auth.authenticate_user username w))
    /\ (inputs evs <= 1)%nat
    /\ forall e, fst (auth.authenticate_user username w) = Raise e ->
         e = ValueError \/ e = InvalidToken \/ e = EOFError
         \/ e = BinasciiError.
Proof.
  destruct (stored_users w !! username) as [rec|] eqn:Hu.
  2: { rewrite (authenticate_user_missing _ _ Hu).
       exists [Print MsgUserNotFound]. cbn [fst snd].
       split; [repeat split|split; [cbn; lia|discriminate]]. }
  assert (Hraise : forall e, (Raise ValueError : result unit) = Raise e ->
            e = ValueError \/ e = InvalidToken \/ e = EOFError
            \/ e = BinasciiError) by (intros e H; left; congruence).
  remember (auth.authenticate_user username w) as r eqn:Er.
  unfold auth.authenticate_user, bind at 1 in Er.
  rewrite load_users_eq, Hu in Er.
  rewrite bind_lift in Er.
  destruct (base64.fromhex (user_data.salt rec)) as [salt|e] eqn:Hs.
  2: { subst r. exists []. cbn [fst snd]. split; [apply ran_nothing|].
       split; [cbn; lia|]. rewrite (fromhex_raises _ _ Hs). exact Hraise. }
  rewrite bind_lift in Er.
  destruct (base64.fromhex (user_data.encrypted_hash rec)) as [eh|e] eqn:He.
  2: { subst r. exists []. cbn [fst snd]. split; [apply ran_nothing|].
       split; [cbn; lia|]. rewrite (fromhex_raises _ _ He). exact Hraise. }
  rewrite bind_lift in Er.
  destruct (base64.fromhex (user_data.key rec)) as [key|e] eqn:Hk.
  2: { subst r. exists []. cbn [fst snd]. split; [apply ran_nothing|].
       split; [cbn; lia|]. rewrite (fromhex_raises _ _ Hk). exact Hraise. }
  rewrite bind_lift in Er.
  destruct (base64.fromhex (user_data.nonce rec)) as [nonce|e] eqn:Hn.
  2: { subst r. exists []. cbn [fst snd]. split; [apply ran_nothing|].
       split; [cbn; lia|]. rewrite (fromhex_raises _ _ Hn). exact Hraise. }
  unfold bind at 1, biometric.generate_mock_fingerprint in Er.
  unfold bind at 1 in Er. rewrite generate_hash_with_salt in Er.
  rewrite bind_lift in Er.
  destruct (encryption.decrypt_data key nonce eh) as [d|e] eqn:Hd.
  2: { subst r. exists []. cbn [fst snd]. split; [apply ran_nothing|].
       split; [cbn; lia|]. intros e' H. injection H as <-.
       destruct (decrypt_data_raises key nonce eh e Hd) as [->| ->];
         auto. }
  destruct (negb (bytes_eqb _ d)).
  { subst r. exists [Print MsgBiometricFailed]. cbn [fst snd].
    split; [repeat split|split; [cbn; lia|discriminate]]. }
  fold (otp_stage (user_data.otp_secret rec)) in Er. subst r.
  destruct (otp_stage_frame (user_data.otp_secret rec) w) as (evs & H1 & H2 & H3).
  exists evs. split; [exact H1|]. split; [exact H2|].
  intros e H. destruct (H3 e H) as [->|[->| ->]]; auto.
Qed.

(** X18.  [authenticate_user] draws nothing from the random source, leaves
    the clock and the generators alone, and reads from the terminal one
    line for each time it prompts, which is at most once. *)
Theorem authenticate_user_frame username w :
  exists evs,
    ran 0 (inputs evs) evs w (snd (auth.authenticate_user username w))
    /\ (inputs evs <= 1)%nat.
Proof.
  destruct (authenticate_user_stages username w) as (evs & H1 & H2 & _).
  exists evs. split; assumption.
Qed.

(** X19.  The errors that escape [authenticate_user] are [ValueError],
    [InvalidToken], [EOFError] and [binascii.Error], and no other. *)
Theorem authenticate_user_raises_only username w e :
  fst (auth.authenticate_user username w) = Raise e ->
  e = ValueError \/ e = InvalidToken \/ e = EOFError \/ e = BinasciiError.
Proof.
  destruct (authenticate_user_stages username w) as (evs & _ & _ & H).
  apply H.
Qed.

Lemma authenticate_user_raises_only_witness :
  fst (auth.authenticate_user "alice" corrupted_world) = Raise ValueError
  /\ (ValueError = ValueError \/ ValueError = InvalidToken
      \/ ValueError = EOFError \/ ValueError = BinasciiError).
Proof.
  split; [vm_compute; reflexivity|].
  apply (authenticate_user_raises_only "alice" corrupted_world ValueError).
  vm_compute. reflexivity.
Defined.

(** ** The menu *)

Lemma reads_on_refl w : reads_on w w.
Proof. now exists 0%nat. Qed.

Lemma reads_on_trans w1 w2 w3 :
  reads_on w1 w2 -> reads_on w2 w3 -> reads_on w1 w3.
Proof.
  intros [k1 H1] [k2 H2]. exists (k1 + k2)%nat.
  rewrite H2, H1, skipn_skipn. f_equal. lia.
Qed.

Lemma reads_on_length w w' :
  reads_on w w' -> (length (stdin w') <= length (stdin w))%nat.
Proof. intros [k ->]. rewrite length_skipn. lia. Qed.

Lemma reads_on_In w w' x : reads_on w w' -> In x (stdin w') -> In x (stdin w).
Proof.
  intros [k ->] H. rewrite <- (firstn_skipn k (stdin w)).
  apply in_or_app. now right.
Qed.

Lemma register_user_reads_nothing username w :
  stdin (snd (auth.register_user username w)) = stdin w.
Proof.
  destruct (stored_users w !! username) as [rec|] eqn:Hu.
  - now rewrite (register_user_taken username w rec Hu).
  - destruct (register_user_new username w Hu) as (r & _ & _ & E).
    rewrite E. destruct r; reflexivity.
Qed.

Lemma authenticate_user_reads_on username w :
  reads_on w (snd (auth.authenticate_user username w)).
Proof.
  destruct (authenticate_user_stages username w) as (evs & H & _).
  destruct H as (_ & Hin & _). now exists (inputs evs).
Qed.

Lemma ask_eq p s :
  ask p s
  = match stdin (inner s) with
    | [] => (Raise EOFError,
             {| inner := inner s; transcript := transcript s ++ [Ask p] |})
    | line :: rest =>
        (Ok line, {| inner := set_stdin rest (inner s);
                     transcript := transcript s ++ [Ask p] |})
    end.
Proof. reflexivity. Qed.

Lemma ask_reads_on p s : reads_on (inner s) (inner (snd (ask p s))).
Proof.
  rewrite ask_eq. destruct (stdin (inner s)) as [|line rest] eqn:E; cbn.
  - apply reads_on_refl.
  - exists 1%nat. cbn. now rewrite E.
Qed.

Lemma call_inner {A} (m : M A) s :
  inner (snd (call m s)) = snd (m (inner s))
  /\ fst (call m s) = fst (m (inner s)).
Proof. unfold call. destruct (m (inner s)) as [r w']. split; reflexivity. Qed.

Lemma cbind_eq {A B} (m : Menu A) (k : A -> Menu B) s :
  cbind m k s
  = match m s with
    | (Ok a, s') => k a s'
    | (Raise e, s') => (Raise e, s')
    end.
Proof. reflexivity. Qed.

Lemma ask_then_reads_on {A} p (k : string -> Menu A) s :
  (forall x s1, reads_on (inner s1) (inner (snd (k x s1)))) ->
  reads_on (inner s) (inner (snd (cbind (ask p) k s))).
Proof.
  intros Hk. rewrite cbind_eq.
  pose proof (ask_reads_on p s) as Ha.
  destruct (ask p s) as [[line|e] s1]; cbn [snd] in *; [|exact Ha].
  exact (reads_on_trans _ _ _ Ha (Hk line s1)).
Qed.

Lemma view_all_users_inner s : inner (snd (auth_menu.view_all_users s)) = inner s.
Proof.
  unfold auth_menu.view_all_users. rewrite cbind_eq. unfold call.
  rewrite load_users_eq. cbn [inner].
  destruct (decide (stored_users (inner s) = ∅)); reflexivity.
Qed.

Lemma command_reads_on choice s :
  reads_on (inner s) (inner (snd (main.command choice s))).
Proof.
  unfold main.command.
  destruct (String.eqb choice "1").
  { apply ask_then_reads_on. intros u s1.
    rewrite (proj1 (call_inner _ s1)).
    exists 0%nat. apply register_user_reads_nothing. }
  destruct (String.eqb choice "2").
  { apply ask_then_reads_on. intros u s1.
    rewrite (proj1 (call_inner _ s1)). apply authenticate_user_reads_on. }
  destruct (String.eqb choice "3").
  { rewrite view_all_users_inner. apply reads_on_refl. }
  destruct (String.eqb choice "4").
  { unfold auth_menu.delete_all_users. apply ask_then_reads_on. intros c s1.
    destruct (String.eqb (lower c) "yes"); now exists 0%nat. }
  apply reads_on_refl.
Qed.

Lemma prompt_choice_eq s :
  main.prompt_choice s
  = ask PromptChoice
      {| inner := inner s;
         transcript :=
           transcript s
           ++ [Say MsgTitle; Say (MsgOption 1); Say (MsgOption 2);
               Say (MsgOption 3); Say (MsgOption 4); Say (MsgOption 5)] |}.
Proof.
  unfold main.prompt_choice, cbind, say. cbn [inner transcript].
  rewrite <- !app_assoc. reflexivity.
Qed.

Lemma main_loop_enough fuel : forall s,
  (length (stdin (inner s)) < fuel)%nat ->
  exists r s',
    main.main_loop fuel s = Some (r, s')
    /\ (r = Ok tt ->
        In "5"%string (stdin (inner s))
        /\ exists t, transcript s' = t ++ [Say MsgExiting]).
Proof.
  induction fuel as [|fuel IH]; intros s Hlen; [lia|].
  cbn [main.main_loop]. rewrite prompt_choice_eq, ask_eq. cbn [inner transcript].
  destruct (stdin (inner s)) as [|choice rest] eqn:Hin.
  { do 2 eexists. split; [reflexivity|discriminate]. }
  destruct (String.eqb choice "5") eqn:H5.
  { apply String.eqb_eq in H5. subst choice.
    do 2 eexists. split; [reflexivity|]. intros _. split; [now left|].
    cbn [say transcript snd]. eauto. }
  match goal with |- context [main.command choice ?s1] =>
    pose proof (command_reads_on choice s1) as Hr;
    destruct (main.command choice s1) as [[u|e] s2] eqn:Ec end.
  2: { do 2 eexists. split; [reflexivity|discriminate]. }
  cbn [snd inner] in Hr.
  destruct (IH s2) as (r & s' & E & Hok).
  { apply reads_on_length in Hr. cbn [stdin set_stdin] in Hr.
    cbn [length] in Hlen. lia. }
  exists r, s'. split; [exact E|]. intros Hr'.
  destruct (Hok Hr') as (H5' & Ht). split; [|exact Ht].
  right. exact (reads_on_In _ _ _ Hr H5').
Qed.

Lemma lower_char_y c :
  Ascii.eqb (lower_char c) "y" = Ascii.eqb c "y" || Ascii.eqb c "Y".
Proof. destruct c as [[] [] [] [] [] [] [] []]; reflexivity. Qed.

Lemma lower_char_e c :
  Ascii.eqb (lower_char c) "e" = Ascii.eqb c "e" || Ascii.eqb c "E".
Proof. destruct c as [[] [] [] [] [] [] [] []]; reflexivity. Qed.

Lemma lower_char_s c :
  Ascii.eqb (lower_char c) "s" = Ascii.eqb c "s" || Ascii.eqb c "S".
Proof. destruct c as [[] [] [] [] [] [] [] []]; reflexivity. Qed.

Lemma lower_yes line :
  String.eqb (lower line) "yes" = existsb (String.eqb line) yes_spellings.
Proof.
  unfold yes_spellings.
  destruct line as [|a [|b [|c [|d l]]]]; cbn [lower existsb String.eqb];
    rewrite ?lower_char_y, ?lower_char_e, ?lower_char_s; try reflexivity;
    btauto.
Qed.

Lemma delete_all_users_eq s line rest :
  stdin (inner s) = line :: rest ->
  auth_menu.delete_all_users s
  = (Ok tt,
     if existsb (String.eqb line) yes_spellings then
       {| inner := set_users_json (Some ∅) (set_stdin rest (inner s));
          transcript :=
            transcript s ++ [Ask PromptConfirmDelete; Say MsgAllDeleted] |}
     else
       {| inner := set_stdin rest (inner s);
          transcript :=
            transcript s ++ [Ask PromptConfirmDelete; Say MsgCanceled] |}).
Proof.
  intros Hin. unfold auth_menu.delete_all_users. rewrite cbind_eq, ask_eq, Hin.
  rewrite lower_yes.
  destruct (existsb (String.eqb line) yes_spellings).
  - unfold cbind, call, auth.save_users, say.
    cbn [inner transcript trace set_users_json set_stdin].
    rewrite skipn_all, app_nil_r, <- app_assoc. reflexivity.
  - unfold say. cbn [inner transcript]. rewrite <- app_assoc. reflexivity.
Qed.

(** X20.  [delete_all_users] with a line to read returns normally.  When
    the line is "yes" in any mix of capitals the database becomes empty,
    and [authenticate_user] then reports "User not found" for every name;
    for every other line (a "y", a "yes" with a space) nothing changes but
    the line being consumed. *)
Theorem delete_all_users_needs_yes s line rest :
  stdin (inner s) = line :: rest ->
  fst (auth_menu.delete_all_users s) = Ok tt
  /\ if existsb (String.eqb line) yes_spellings then
       users_json (inner (snd (auth_menu.delete_all_users s))) = Some ∅
       /\ forall username,
            auth.authenticate_user username
              (inner (snd (auth_menu.delete_all_users s)))
            = (Ok tt,
               log (Print MsgUserNotFound)
                 (inner (snd (auth_menu.delete_all_users s))))
     else
       inner (snd (auth_menu.delete_all_users s)) = set_stdin rest (inner s).
Proof.
  intros Hin. rewrite (delete_all_users_eq s line rest Hin). cbn [fst snd].
  split; [reflexivity|].
  destruct (existsb (String.eqb line) yes_spellings); cbn [inner].
  - split; [reflexivity|]. intros username.
    apply authenticate_user_missing. apply lookup_empty.
  - reflexivity.
Qed.

Lemma delete_all_users_needs_yes_witness :
  stdin (inner (start (sample_world (Some {["alice"%string := enrolled_record]})
                         ["YES"%string] 59)))
  = ["YES"%string]
  /\ fst (auth_menu.delete_all_users
            (start (sample_world (Some {["alice"%string := enrolled_record]})
                      ["YES"%string] 59))) = Ok tt
  /\ if existsb (String.eqb "YES") yes_spellings then
       users_json
         (inner (snd (auth_menu.delete_all_users
                        (start (sample_world
                                  (Some {["alice"%string := enrolled_record]})
                                  ["YES"%string] 59))))) = Some ∅
       /\ forall username,
            auth.authenticate_user username
              (inner (snd (auth_menu.delete_all_users
                             (start (sample_world
                                       (Some {["alice"%string := enrolled_record]})
                                       ["YES"%string] 59)))))
            = (Ok tt,
               log (Print MsgUserNotFound)
                 (inner (snd (auth_menu.delete_all_users
                                (start (sample_world
                                          (Some {["alice"%string := enrolled_record]})
                                          ["YES"%string] 59))))))
     else
       inner (snd (auth_menu.delete_all_users
                     (start (sample_world
                               (Some {["alice"%string := enrolled_record]})
                               ["YES"%string] 59))))
       = set_stdin []
           (inner (start (sample_world
                            (Some {["alice"%string := enrolled_record]})
                            ["YES"%string] 59))).
Proof.
  split; [reflexivity|].
  apply (delete_all_users_needs_yes
           (start (sample_world (Some {["alice"%string := enrolled_record]})
                     ["YES"%string] 59)) "YES" []).
  reflexivity.
Defined.

(** X21.  [main] ends on every finite input: one turn more than there are
    lines suffices.  It returns normally only if a line "5" was read as a
    choice, and then "Exiting..." is the last thing on the console; every
    other run ends with an exception ([EOFError] when the input runs
    out). *)
Theorem main_ends_on_five_or_raises w :
  exists r s',
    main.main (start w) = Some (r, s')
    /\ (r = Ok tt ->
        In "5"%string (stdin w)
        /\ exists t, transcript s' = t ++ [Say MsgExiting]).
Proof.
  unfold main.main. apply (main_loop_enough _ (start w)). cbn. lia.
Qed.

Lemma main_loop_exit fuel s rest :
  stdin (inner s) = "5"%string :: rest ->
  main.main_loop (S fuel) s
  = Some (Ok tt, {| inner := set_stdin rest (inner s);
                    transcript := transcript s ++ menu_lines ++ [Say MsgExiting] |}).
Proof.
  intros Hin. cbn [main.main_loop]. rewrite prompt_choice_eq, ask_eq.
  cbn [inner transcript]. rewrite Hin. cbn [String.eqb Ascii.eqb].
  unfold say. cbn [inner transcript]. unfold menu_lines.
  rewrite <- !app_assoc. reflexivity.
Qed.

Lemma main_loop_turn fuel s choice rest s2 :
  stdin (inner s) = choice :: rest ->
  String.eqb choice "5" = false ->
  main.command choice {| inner := set_stdin rest (inner s);
                         transcript := transcript s ++ menu_lines |}
  = (Ok tt, s2) ->
  main.main_loop (S fuel) s = main.main_loop fuel s2.
Proof.
  intros Hin H5 Hc. cbn [main.main_loop]. rewrite prompt_choice_eq, ask_eq.
  cbn [inner transcript]. rewrite Hin, H5.
  unfold menu_lines in Hc. rewrite <- !app_assoc. cbn [app] in *.
  now rewrite Hc.
Qed.

Lemma command_invalid choice s :
  is_choice choice = false ->
  main.command choice s
  = (Ok tt, {| inner := inner s;
               transcript := transcript s ++ [Say MsgInvalidChoice] |}).
Proof.
  unfold is_choice, main.command. cbn [existsb].
  destruct (String.eqb choice "1"); [discriminate|].
  destruct (String.eqb choice "2"); [discriminate|].
  destruct (String.eqb choice "3"); [discriminate|].
  destruct (String.eqb choice "4"); [discriminate|]. reflexivity.
Qed.

Lemma main_loop_invalid lines : forall fuel s rest,
  (length lines < fuel)%nat ->
  Forall (fun line => is_choice line = false) lines ->
  stdin (inner s) = lines ++ "5"%string :: rest ->
  main.main_loop fuel s
  = Some (Ok tt,
          {| inner := set_stdin rest (inner s);
             transcript :=
               transcript s
               ++ concat (map (fun _ => menu_lines ++ [Say MsgInvalidChoice])
                            lines)
               ++ menu_lines ++ [Say MsgExiting] |}).
Proof.
  induction lines as [|line lines IH]; intros fuel s rest Hlen Hall Hin.
  - destruct fuel as [|fuel]; [cbn in Hlen; lia|].
    rewrite (main_loop_exit fuel s rest Hin). reflexivity.
  - destruct fuel as [|fuel]; [cbn in Hlen; lia|].
    apply Forall_cons in Hall as [Hline Hall].
    assert (H5 : String.eqb line "5" = false).
    { unfold is_choice in Hline. cbn [existsb] in Hline.
      destruct (String.eqb line "5"); [|reflexivity].
      rewrite !orb_true_r in Hline. discriminate. }
    rewrite (main_loop_turn fuel s line (lines ++ "5"%string :: rest) _
               Hin H5 (command_invalid line _ Hline)).
    rewrite (IH fuel _ rest); [| cbn in Hlen; lia | exact Hall | reflexivity].
    cbn [inner transcript set_stdin stdin map concat].
    rewrite <- !app_assoc. reflexivity.
Qed.

(** X22.  Lines that are not one of the five choices are harmless: when
    such lines are followed by "5", [main] answers each of them with the
    menu and "Invalid choice", then exits normally, and nothing but the
    terminal input has changed. *)
Theorem main_ignores_unknown_choices w lines rest :
  Forall (fun line => is_choice line = false) lines ->
  stdin w = lines ++ "5"%string :: rest ->
  main.main (start w)
  = Some (Ok tt,
          {| inner := set_stdin rest w;
             transcript :=
               concat (map (fun _ => menu_lines ++ [Say MsgInvalidChoice])
                         lines)
               ++ menu_lines ++ [Say MsgExiting] |}).
Proof.
  intros Hall Hin. unfold main.main.
  rewrite (main_loop_invalid lines _ (start w) rest); [reflexivity| |exact Hall|exact Hin].
  cbn [start inner]. rewrite Hin, length_app. cbn. lia.
Qed.

Lemma main_ignores_unknown_choices_witness :
  Forall (fun line => is_choice line = false) ["x"; "12"; ""]%string
  /\ stdin (sample_world None ["x"; "12"; ""; "5"; "1"]%string 59)
     = ["x"; "12"; ""]%string ++ "5"%string :: ["1"%string]
  /\ main.main (start (sample_world None ["x"; "12"; ""; "5"; "1"]%string 59))
     = Some (Ok tt,
             {| inner :=
                  set_stdin ["1"%string]
                    (sample_world None ["x"; "12"; ""; "5"; "1"]%string 59);
                transcript :=
                  concat (map (fun _ => menu_lines ++ [Say MsgInvalidChoice])
                            ["x"; "12"; ""]%string)
                  ++ menu_lines ++ [Say MsgExiting] |}).
Proof.
  assert (H : Forall (fun line => is_choice line = false) ["x"; "12"; ""]%string)
    by (repeat constructor).
  split; [exact H|]. split; [reflexivity|].
  apply (main_ignores_unknown_choices
           (sample_world None ["x"; "12"; ""; "5"; "1"]%string 59)
           ["x"; "12"; ""]%string ["1"%string]); [exact H|reflexivity].
Defined.





